(** * WebSocket frame server: a shallow embedding and its properties

    The development embeds the two servers of the repository,
    [websocket-frame-server.js] (top level of this file) and
    [syphon-server-fixed.js] (module [Syphon]), as functions over an explicit
    server state.  Every handler returns the new state (or the HTTP response)
    together with the list of library calls it made, so that statements such
    as "no decode was attempted" can be written down.

    What is not part of the repository -- the UTF-8 decoder behind
    [data.toString('utf8')], [Buffer.from(s, 'base64')], the [sharp] image
    pipeline and a few conversions of the language -- is collected in the
    record [Runtime]; all theorems hold for every runtime. *)

From Stdlib Require Import List NArith ZArith QArith Bool String Ascii Lia.
From Stdlib Require Import DecimalString.
Import ListNotations.

Local Close Scope Q_scope.
Local Open Scope N_scope.

(** ** Data *)

(** A [Buffer] is a sequence of bytes, a JavaScript string a sequence of
    UTF-16 code units; [.length] counts elements in both cases. *)
Definition Buffer := list N.
Definition jsstring := list N.

Definition lit (s : string) : jsstring :=
  map N_of_ascii (list_ascii_of_string s).

Definition len {A : Type} (l : list A) : N := N.of_nat (List.length l).

Fixpoint jseq (s t : jsstring) : bool :=
  match s, t with
  | [], [] => true
  | x :: s', y :: t' => (x =? y) && jseq s' t'
  | _, _ => false
  end.

(** [s.startsWith(p)] *)
Fixpoint startsWith (s p : jsstring) : bool :=
  match p, s with
  | [], _ => true
  | c :: p', d :: s' => (c =? d) && startsWith s' p'
  | _ :: _, [] => false
  end.

(** [s.indexOf(c)] for a one-character [c]: the first position, or -1. *)
Fixpoint indexOf (s : jsstring) (c : N) : Z :=
  match s with
  | [] => (-1)%Z
  | d :: s' =>
      if d =? c then 0%Z
      else let r := indexOf s' c in
           if (r <? 0)%Z then (-1)%Z else (r + 1)%Z
  end.

(** [s.substring(start)]; a negative [start] counts as 0. *)
Definition substring (s : jsstring) (start : Z) : jsstring :=
  skipn (Z.to_nat start) s.

(** [arr.includes(x)] on an array of strings. *)
Definition includes (arr : list jsstring) (x : jsstring) : bool :=
  existsb (jseq x) arr.

(** [data[i] === v]; an index out of range reads [undefined]. *)
Definition byte_is (data : Buffer) (i : nat) (v : N) : bool :=
  match nth_error data i with
  | Some x => x =? v
  | None => false
  end.

Set Warnings "-register-all".

(** Values of a parsed JSON body.  [JNum q] carries the number as parsed
    (a finite double, hence a rational). *)
Inductive json : Type :=
| JNull
| JBool (b : bool)
| JNum (q : Q)
| JStr (s : jsstring)
| JArr (elems : list json)
| JObj (fields : list (jsstring * json)).

(** Numbers as comparisons see them. *)
Inductive jsnum : Type :=
| Finite (q : Q)
| PosInf
| NegInf
| NaN.

(** [x >= y] and [x <= y] against a finite constant [y]. *)
Definition num_ge (x : jsnum) (y : Q) : bool :=
  match x with
  | Finite q => Qle_bool y q
  | PosInf => true
  | NegInf | NaN => false
  end.

Definition num_le (x : jsnum) (y : Q) : bool :=
  match x with
  | Finite q => Qle_bool q y
  | NegInf => true
  | PosInf | NaN => false
  end.

(** Outcome of a call that may throw. *)
Inductive result (A : Type) : Type :=
| Ok (a : A)
| Throw (message : jsstring).
Arguments Ok {A} a.
Arguments Throw {A} message.

(** Outcome of a [sharp(...)....toBuffer()] chain: the promise resolves, the
    promise rejects, or building the chain throws before there is a promise. *)
Inductive outcome : Type :=
| Resolved (out : Buffer)
| Rejected (message : jsstring)
| Thrown (message : jsstring).

(** The output stage attached to [sharp(input)]. *)
Inductive SharpOp : Type :=
| op_webp (quality : json)                       (* .webp({ quality }) *)
| op_jpeg (quality : json)                       (* .jpeg({ quality }) *)
| op_png_level (compressionLevel : N)            (* .png({ compressionLevel }) *)
| op_png_quality (quality : N)                   (* .png({ quality }) *)
| op_toFormat (format : jsstring) (quality : json). (* .toFormat(format, { quality }) *)

(** Library calls a handler makes, in order. *)
Inductive Call : Type :=
| CallBase64 (text : jsstring)
| CallSharp (input : Buffer) (op : SharpOp).

Record Runtime : Type := mkRuntime {
  toString_utf8 : Buffer -> jsstring;
  from_base64 : jsstring -> result Buffer;
  sharp_toBuffer : Buffer -> SharpOp -> outcome;
  toUpperCase : jsstring -> jsstring;
  StringToNumber : jsstring -> jsnum;
  object_toString : json -> result jsstring
}.

(** ** Server state of [websocket-frame-server.js] *)

Record Config : Type := mkConfig {
  outputFormat : jsstring;
  quality : json;
  maxFrameSize : N;
  cleanupInterval : N;
  statsInterval : N
}.

Record State : Type := mkState {
  latestFrameBuffer : option Buffer;
  frameCount : N;
  clientCount : Z;
  bytesReceived : N;
  lastFrameType : jsstring;
  serverStartTime : N;
  connectionErrors : N;
  CONFIG : Config
}.

Definition initial_CONFIG : Config :=
  {| outputFormat := lit "png";
     quality := JNum (inject_Z 90);
     maxFrameSize := 50 * 1024 * 1024;
     cleanupInterval := 30000;
     statsInterval := 5000 |}.

Definition initial_state (now : N) : State :=
  {| latestFrameBuffer := None;
     frameCount := 0;
     clientCount := 0%Z;
     bytesReceived := 0;
     lastFrameType := lit "waiting...";
     serverStartTime := now;
     connectionErrors := 0;
     CONFIG := initial_CONFIG |}.

Definition set_latestFrameBuffer (v : option Buffer) (st : State) : State :=
  mkState v (frameCount st) (clientCount st) (bytesReceived st)
          (lastFrameType st) (serverStartTime st) (connectionErrors st) (CONFIG st).

Definition set_frameCount (v : N) (st : State) : State :=
  mkState (latestFrameBuffer st) v (clientCount st) (bytesReceived st)
          (lastFrameType st) (serverStartTime st) (connectionErrors st) (CONFIG st).

Definition set_clientCount (v : Z) (st : State) : State :=
  mkState (latestFrameBuffer st) (frameCount st) v (bytesReceived st)
          (lastFrameType st) (serverStartTime st) (connectionErrors st) (CONFIG st).

Definition set_bytesReceived (v : N) (st : State) : State :=
  mkState (latestFrameBuffer st) (frameCount st) (clientCount st) v
          (lastFrameType st) (serverStartTime st) (connectionErrors st) (CONFIG st).

Definition set_lastFrameType (v : jsstring) (st : State) : State :=
  mkState (latestFrameBuffer st) (frameCount st) (clientCount st) (bytesReceived st)
          v (serverStartTime st) (connectionErrors st) (CONFIG st).

Definition set_connectionErrors (v : N) (st : State) : State :=
  mkState (latestFrameBuffer st) (frameCount st) (clientCount st) (bytesReceived st)
          (lastFrameType st) (serverStartTime st) v (CONFIG st).

Definition set_CONFIG (v : Config) (st : State) : State :=
  mkState (latestFrameBuffer st) (frameCount st) (clientCount st) (bytesReceived st)
          (lastFrameType st) (serverStartTime st) (connectionErrors st) v.

Definition set_outputFormat (v : jsstring) (c : Config) : Config :=
  mkConfig v (quality c) (maxFrameSize c) (cleanupInterval c) (statsInterval c).

Definition set_quality (v : json) (c : Config) : Config :=
  mkConfig (outputFormat c) v (maxFrameSize c) (cleanupInterval c) (statsInterval c).

(** The array [['png', 'webp', 'jpeg']] of both handlers that validate a format. *)
Definition formats : list jsstring := [lit "png"; lit "webp"; lit "jpeg"].

(** The 33 bytes of [emptyFrame]. *)
Definition emptyFrame : Buffer :=
  [137; 80; 78; 71; 13; 10; 26; 10; 0; 0; 0; 13; 73; 72; 68; 82;
   0; 0; 0; 1; 0; 0; 0; 1; 8; 2; 0; 0; 0; 144; 119; 83; 222].

(** ** Messages, requests and responses *)

(** What the [message] event delivers: a [Buffer] or a string. *)
Inductive RawData : Type :=
| Buf (data : Buffer)
| Str (data : jsstring).

Inductive ResBody : Type :=
| Bytes (b : Buffer)
| Text (s : jsstring)
| ErrorPage (message : jsstring).

Record Response : Type := mkResponse {
  status : N;
  headers : list (jsstring * jsstring);
  body : ResBody
}.

(** The fields of a [POST /config] body the handler reads; [None] is a
    field that is absent. *)
Record ConfigBody : Type := mkConfigBody {
  body_outputFormat : option json;
  body_quality : option json
}.

Record ConfigResponse : Type := mkConfigResponse {
  success : bool;
  config : Config
}.

(** What a [POST /config] request gets: the JSON body of [res.json], or,
    when the handler throws, the error answer of the framework (status
    500). *)
Inductive ConfigReply : Type :=
| Replied (res : ConfigResponse)
| Failed (message : jsstring).

(** ** Handlers of [websocket-frame-server.js] *)

Section Handlers.

Variable rt : Runtime.

(** Truthiness of a value that may be absent ([undefined]). *)
Definition truthy (v : option json) : bool :=
  match v with
  | None | Some JNull => false
  | Some (JBool b) => b
  | Some (JNum q) => negb (Qeq_bool q 0)
  | Some (JStr s) => match s with [] => false | _ :: _ => true end
  | Some (JArr _) | Some (JObj _) => true
  end.

(** The number a string converts to; the empty string converts to 0. *)
Definition Number_of_string (s : jsstring) : jsnum :=
  match s with
  | [] => Finite 0
  | _ :: _ => StringToNumber rt s
  end.

(** The number a relational operator compares.  An array or an object is
    first converted to a string, and that conversion throws a [TypeError]
    when the value has no usable [toString] (a parsed body such as
    [{"toString": null}]). *)
Definition ToNumber (v : option json) : result jsnum :=
  match v with
  | None => Ok NaN
  | Some JNull => Ok (Finite 0)
  | Some (JBool b) => Ok (Finite (if b then 1 else 0))
  | Some (JNum q) => Ok (Finite q)
  | Some (JStr s) => Ok (Number_of_string s)
  | Some (JArr e) =>
      match object_toString rt (JArr e) with
      | Ok s => Ok (Number_of_string s)
      | Throw e => Throw e
      end
  | Some (JObj f) =>
      match object_toString rt (JObj f) with
      | Ok s => Ok (Number_of_string s)
      | Throw e => Throw e
      end
  end.

(** [['png', 'webp', 'jpeg'].includes(v)]: only a string can be found. *)
Definition format_allowed (v : option json) : bool :=
  match v with
  | Some (JStr s) => includes formats s
  | _ => false
  end.

Definition format_accepted (v : option json) : bool :=
  truthy v && format_allowed v.

(** [req.body.quality && req.body.quality >= 10 && req.body.quality <= 100];
    the first comparison is where the conversion can throw. *)
Definition quality_accepted (v : option json) : result bool :=
  if truthy v then
    match ToNumber v with
    | Ok n => Ok (num_ge n (inject_Z 10) && num_le n (inject_Z 100))
    | Throw e => Throw e
    end
  else Ok false.

(** [app.post('/config', ...)].  When the quality test throws, the format
    has already been assigned and [res.json] is never reached. *)
Definition post_config (st : State) (req : ConfigBody) : State * ConfigReply :=
  let cfg := CONFIG st in
  let cfg :=
    match body_outputFormat req with
    | Some (JStr s) =>
        if format_accepted (body_outputFormat req) then set_outputFormat s cfg else cfg
    | _ => cfg
    end in
  match body_quality req with
  | Some q =>
      match quality_accepted (body_quality req) with
      | Ok true =>
          let cfg := set_quality q cfg in
          (set_CONFIG cfg st, Replied {| success := true; config := cfg |})
      | Ok false =>
          (set_CONFIG cfg st, Replied {| success := true; config := cfg |})
      | Throw e => (set_CONFIG cfg st, Failed e)
      end
  | None => (set_CONFIG cfg st, Replied {| success := true; config := cfg |})
  end.

(** [app.post('/clear', ...)] *)
Definition post_clear (st : State) : State :=
  let st := set_latestFrameBuffer None st in
  let st := set_frameCount 0 st in
  let st := set_bytesReceived 0 st in
  set_lastFrameType (lit "buffer cleared") st.

Definition frame_headers (format : jsstring) : list (jsstring * jsstring) :=
  [ (lit "Content-Type", lit "image/" ++ format);
    (lit "Cache-Control", lit "no-cache");
    (lit "Access-Control-Allow-Origin", lit "*") ].

(** The headers of the error answer: the framework replaces the content
    type; the other two headers stay as the handler set them. *)
Definition error_headers : list (jsstring * jsstring) :=
  [ (lit "Content-Type", lit "text/html; charset=utf-8");
    (lit "Cache-Control", lit "no-cache");
    (lit "Access-Control-Allow-Origin", lit "*") ].

(** [app.get('/frame.:format', ...)]: the status and the body the handler
    sends, with the headers it sets.  A rejected promise reaches [.catch];
    an exception thrown while the chain is built is not caught by the
    handler and is answered by the framework with status 500.  What
    [res.send] does to the answer of a conditional request is
    [revalidated] below. *)
Definition get_frame (st : State) (format : jsstring) : Response * list Call :=
  if negb (includes formats format) then
    (mkResponse 400 [] (Text (lit "Invalid format. Use png, webp, or jpeg")), [])
  else
    let hs := frame_headers format in
    match latestFrameBuffer st with
    | Some frame =>
        if 100 <? len frame then
          if negb (jseq format (outputFormat (CONFIG st))) then
            let op := op_toFormat format (quality (CONFIG st)) in
            match sharp_toBuffer rt frame op with
            | Resolved buffer => (mkResponse 200 hs (Bytes buffer), [CallSharp frame op])
            | Rejected _ => (mkResponse 200 hs (Bytes frame), [CallSharp frame op])
            | Thrown e => (mkResponse 500 error_headers (ErrorPage e), [CallSharp frame op])
            end
          else (mkResponse 200 hs (Bytes frame), [])
        else (mkResponse 200 hs (Bytes emptyFrame), [])
    | None => (mkResponse 200 hs (Bytes emptyFrame), [])
    end.

(** The output stage both branches of the [message] handler select. *)
Definition encoder (cfg : Config) : SharpOp :=
  if jseq (outputFormat cfg) (lit "webp") then op_webp (quality cfg)
  else if jseq (outputFormat cfg) (lit "jpeg") then op_jpeg (quality cfg)
  else op_png_level 6.

(** The check on a [Buffer] for the signature of a data URL. *)
Definition has_signature (data : Buffer) : bool :=
  (10 <? len data) && byte_is data 0 100 && byte_is data 1 97
  && byte_is data 2 116 && byte_is data 3 97.

(** First part of the [message] handler: the values of [buffer] and
    [dataString] after "Handle different data types". *)
Definition sniff (data : RawData) : option Buffer * option jsstring :=
  match data with
  | Buf b =>
      if has_signature b then (None, Some (toString_utf8 rt b))
      else (Some b, None)
  | Str s => (None, Some s)
  end.

(** [dataString && dataString.startsWith('data:image')] *)
Definition is_data_url (dataString : option jsstring) : bool :=
  match dataString with
  | Some (c :: s) => startsWith (c :: s) (lit "data:image")
  | _ => false
  end.

Definition arrow : jsstring := lit " " ++ [8594] ++ lit " ".
Definition tick : jsstring := lit " " ++ [10003].

(** [ws.on('message', ...)], with the conversion settling at once: one
    message is handled from beginning to end before anything else happens
    ([on_message_begin] and [on_message_settle] below split the handler at
    its [await]).  Outside the two inner [try] blocks
    nothing can throw, so the outer [catch] with its [connectionErrors++]
    has no path leading to it. *)
Definition on_message (st : State) (data : RawData) : State * list Call :=
  let st := set_frameCount (frameCount st + 1) st in
  let '(buffer, dataString) := sniff data in
  let st :=
    match buffer with
    | Some _ => set_lastFrameType (lit "raw buffer") st
    | None => st
    end in
  if is_data_url dataString then
    let dataString := match dataString with Some s => s | None => [] end in
    if maxFrameSize (CONFIG st) <? len dataString then
      (set_lastFrameType (lit "frame too large") st, [])
    else
      let st := set_bytesReceived (bytesReceived st + len dataString) st in
      let base64Start := (indexOf dataString 44 + 1)%Z in
      let base64Data := substring dataString base64Start in
      match from_base64 rt base64Data with
      | Ok buffer =>
          let op := encoder (CONFIG st) in
          match sharp_toBuffer rt buffer op with
          | Resolved out =>
              let st := set_latestFrameBuffer (Some out) st in
              (set_lastFrameType
                 (lit "data:image/*" ++ arrow
                  ++ toUpperCase rt (outputFormat (CONFIG st)) ++ tick) st,
               [CallBase64 base64Data; CallSharp buffer op])
          | Rejected e | Thrown e =>
              (set_lastFrameType (lit "conversion error: " ++ e) st,
               [CallBase64 base64Data; CallSharp buffer op])
          end
      | Throw e =>
          (set_lastFrameType (lit "conversion error: " ++ e) st,
           [CallBase64 base64Data])
      end
  else
    match buffer with
    | Some buffer =>
        let st := set_bytesReceived (bytesReceived st + len buffer) st in
        let op := encoder (CONFIG st) in
        match sharp_toBuffer rt buffer op with
        | Resolved out =>
            let st := set_latestFrameBuffer (Some out) st in
            (set_lastFrameType
               (lit "raw buffer" ++ arrow
                ++ toUpperCase rt (outputFormat (CONFIG st)) ++ tick) st,
             [CallSharp buffer op])
        | Rejected _ | Thrown _ =>
            (set_lastFrameType (lit "raw buffer error") st, [CallSharp buffer op])
        end
    | None =>
        (set_lastFrameType (lit "unknown format") st, [])
    end.

(** [wss.on('connection', ...)], [ws.on('close', ...)], [ws.on('error', ...)] *)
Definition on_connection (st : State) : State :=
  set_clientCount (clientCount st + 1)%Z st.

Definition on_close (st : State) : State :=
  set_clientCount (clientCount st - 1)%Z st.

Definition on_error (st : State) : State :=
  set_connectionErrors (connectionErrors st + 1) st.

(** Everything that can happen to the server state. *)
Inductive Event : Type :=
| WsConnection
| WsMessage (data : RawData)
| WsClose
| WsError
| GetRoot
| GetStats
| GetHealth
| GetFrame (format : jsstring)
| PostConfig (req : ConfigBody)
| PostClear.

Definition step (st : State) (ev : Event) : State :=
  match ev with
  | WsConnection => on_connection st
  | WsMessage data => fst (on_message st data)
  | WsClose => on_close st
  | WsError => on_error st
  | GetRoot | GetStats | GetHealth | GetFrame _ => st
  | PostConfig req => fst (post_config st req)
  | PostClear => post_clear st
  end.

Definition run (st : State) (evs : list Event) : State :=
  fold_left step evs st.

End Handlers.

(** ** [syphon-server-fixed.js] *)

Module Syphon.

Record State : Type := mkState {
  latestImageBuffer : option Buffer;
  frameCount : N;
  clientCount : Z;
  bytesReceived : N;
  lastDataType : jsstring
}.

Definition initial_state : State :=
  {| latestImageBuffer := None;
     frameCount := 0;
     clientCount := 0%Z;
     bytesReceived := 0;
     lastDataType := lit "waiting..." |}.

Definition set_lastDataType (v : jsstring) (st : State) : State :=
  mkState (latestImageBuffer st) (frameCount st) (clientCount st) (bytesReceived st) v.

Section Handlers.

Variable rt : Runtime.

(** [app.get('/preview.png', ...)] *)
Definition get_preview (st : State) : Response :=
  let hs := frame_headers (lit "png") in
  match latestImageBuffer st with
  | Some frame =>
      if 100 <? len frame then mkResponse 200 hs (Bytes frame)
      else mkResponse 200 hs (Bytes emptyFrame)
  | None => mkResponse 200 hs (Bytes emptyFrame)
  end.

(** "Step 1: Convert incoming data to string" *)
Definition sniff (data : RawData) : option jsstring :=
  match data with
  | Buf b =>
      if byte_is b 0 100 && byte_is b 1 97 && byte_is b 2 116 && byte_is b 3 97
      then Some (toString_utf8 rt b)
      else None
  | Str s => Some s
  end.

(** [ws.on('message', ...)]; [Buffer.from] stands outside the inner [try]. *)
Definition on_message (st : State) (data : RawData) : State * list Call :=
  let st := mkState (latestImageBuffer st) (frameCount st + 1) (clientCount st)
                    (bytesReceived st) (lastDataType st) in
  let dataString := sniff data in
  if is_data_url dataString then
    let dataString := match dataString with Some s => s | None => [] end in
    let st := mkState (latestImageBuffer st) (frameCount st) (clientCount st)
                      (bytesReceived st + len dataString) (lastDataType st) in
    let base64Start := (indexOf dataString 44 + 1)%Z in
    let base64Data := substring dataString base64Start in
    match from_base64 rt base64Data with
    | Ok buffer =>
        let op := op_png_quality 100 in
        match sharp_toBuffer rt buffer op with
        | Resolved out =>
            (mkState (Some out) (frameCount st) (clientCount st) (bytesReceived st)
                     (lit "data:image/*" ++ tick),
             [CallBase64 base64Data; CallSharp buffer op])
        | Rejected e | Thrown e =>
            (set_lastDataType (lit "ERROR: " ++ e) st,
             [CallBase64 base64Data; CallSharp buffer op])
        end
    | Throw _ =>
        (set_lastDataType (lit "error") st, [CallBase64 base64Data])
    end
  else (set_lastDataType (lit "unknown format") st, []).

(** [wss.on('connection', ...)] and [ws.on('close', ...)]; the [error]
    handler only writes to the console. *)
Definition on_connection (st : State) : State :=
  mkState (latestImageBuffer st) (frameCount st) (clientCount st + 1)%Z
          (bytesReceived st) (lastDataType st).

Definition on_close (st : State) : State :=
  mkState (latestImageBuffer st) (frameCount st) (clientCount st - 1)%Z
          (bytesReceived st) (lastDataType st).

(** The body of [app.get('/stats', ...)]. *)
Record Stats : Type := mkStats {
  stats_clients : Z;
  stats_frames : N;
  stats_type : jsstring
}.

Definition get_stats (st : State) : Stats :=
  {| stats_clients := clientCount st;
     stats_frames := frameCount st;
     stats_type := lastDataType st |}.

Inductive Event : Type :=
| WsConnection
| WsMessage (data : RawData)
| WsClose
| WsError
| GetRoot
| GetStats
| GetPreview.

Definition step (st : State) (ev : Event) : State :=
  match ev with
  | WsConnection => on_connection st
  | WsMessage data => fst (on_message st data)
  | WsClose => on_close st
  | WsError | GetRoot | GetStats | GetPreview => st
  end.

Definition run (st : State) (evs : list Event) : State :=
  fold_left step evs st.

End Handlers.

End Syphon.

(** ** Vocabulary of the specification *)

(** The three outcomes of payload classification. *)
Inductive ClassifiedPayload : Type :=
| DataURI (text : jsstring)
| RawBinary (bytes : Buffer)
| Unrecognized.

(** The branch the [message] handler of [websocket-frame-server.js] takes:
    the data-URL branch, the [else if (buffer)] branch, or the final
    [else]. *)
Definition classify (rt : Runtime) (data : RawData) : ClassifiedPayload :=
  let '(buffer, dataString) := sniff rt data in
  if is_data_url dataString then
    DataURI (match dataString with Some s => s | None => [] end)
  else
    match buffer with
    | Some b => RawBinary b
    | None => Unrecognized
    end.

(** The same for [syphon-server-fixed.js], which has two branches only. *)
Definition syphon_classify (rt : Runtime) (data : RawData) : ClassifiedPayload :=
  let dataString := Syphon.sniff rt data in
  if is_data_url dataString then
    DataURI (match dataString with Some s => s | None => [] end)
  else Unrecognized.

(** Classification in the words of the specification: text, or binary whose
    first five bytes spell "data:", is text and a [DataURI] exactly when it
    starts with "data:image"; any other binary message is [RawBinary]. *)
Definition classify_by_the_words (rt : Runtime) (data : RawData) : ClassifiedPayload :=
  match data with
  | Str s => if startsWith s (lit "data:image") then DataURI s else Unrecognized
  | Buf b =>
      if startsWith b (lit "data:") then
        let s := toString_utf8 rt b in
        if startsWith s (lit "data:image") then DataURI s else Unrecognized
      else RawBinary b
  end.

(** The inputs handed to the image pipeline by a list of calls. *)
Definition transcoder_inputs (calls : list Call) : list Buffer :=
  flat_map (fun c => match c with CallSharp b _ => [b] | CallBase64 _ => [] end) calls.

(** The image format an output stage produces. *)
Definition op_format (op : SharpOp) : jsstring :=
  match op with
  | op_webp _ => lit "webp"
  | op_jpeg _ => lit "jpeg"
  | op_png_level _ | op_png_quality _ => lit "png"
  | op_toFormat f _ => f
  end.

(** The container format of a byte sequence, read off its magic numbers. *)
Definition png_signature : Buffer := [137; 80; 78; 71; 13; 10; 26; 10].

Definition frame_format (b : Buffer) : option jsstring :=
  if startsWith b png_signature then Some (lit "png")
  else if startsWith b [255; 216; 255] then Some (lit "jpeg")
  else if startsWith b (lit "RIFF") && startsWith (skipn 8 b) (lit "WEBP")
       then Some (lit "webp")
  else None.

Definition in_format (F : jsstring) (b : Buffer) : bool :=
  match frame_format b with
  | Some f => jseq f F
  | None => false
  end.

(** *** Well-formed PNG datastreams

    A PNG datastream is the signature followed by chunks (length, type,
    data, CRC); the first chunk is a 13-byte IHDR, the last one IEND, and
    there is at least one IDAT; every CRC matches. *)

Definition be32 (b : list N) : N :=
  fold_left (fun acc x => acc * 256 + x) b 0.

Fixpoint crc_bits (n : nat) (c : N) : N :=
  match n with
  | O => c
  | S n' =>
      crc_bits n' (if N.odd c then N.lxor (N.shiftr c 1) 3988292384
                   else N.shiftr c 1)
  end.

Definition crc32 (b : list N) : N :=
  N.lxor (fold_left (fun c x => crc_bits 8 (N.lxor c x)) b 4294967295) 4294967295.

Record Chunk : Type := mkChunk {
  chunk_type : list N;
  chunk_data : list N;
  chunk_crc : N
}.

Fixpoint chunks (fuel : nat) (b : Buffer) : option (list Chunk) :=
  match fuel with
  | O => None
  | S fuel' =>
      match b with
      | [] => Some []
      | _ =>
          let n := N.to_nat (be32 (firstn 4 b)) in
          let rest := skipn 8 b in
          if (List.length b <? 12)%nat || (List.length rest <? n + 4)%nat then None
          else
            match chunks fuel' (skipn (n + 4) rest) with
            | Some cs =>
                Some (mkChunk (firstn 4 (skipn 4 b)) (firstn n rest)
                              (be32 (firstn 4 (skipn n rest))) :: cs)
            | None => None
            end
      end
  end.

Definition crc_ok (c : Chunk) : bool :=
  crc32 (chunk_type c ++ chunk_data c) =? chunk_crc c.

Definition valid_png (b : Buffer) : bool :=
  startsWith b png_signature &&
  match chunks (S (List.length b)) (skipn 8 b) with
  | Some (ihdr :: cs) =>
      jseq (chunk_type ihdr) (lit "IHDR") && (len (chunk_data ihdr) =? 13)
      && forallb crc_ok (ihdr :: cs)
      && existsb (fun c => jseq (chunk_type c) (lit "IDAT")) cs
      && match last cs ihdr with
         | mkChunk t d _ => jseq t (lit "IEND") && (len d =? 0)
         end
  | _ => false
  end.

(** A complete 1x1 PNG image, 69 bytes long. *)
Definition pixel_png : Buffer :=
  [137; 80; 78; 71; 13; 10; 26; 10; 0; 0; 0; 13; 73; 72; 68; 82;
   0; 0; 0; 1; 0; 0; 0; 1; 8; 2; 0; 0; 0; 144; 119; 83; 222;
   0; 0; 0; 12; 73; 68; 65; 84; 120; 218; 99; 248; 207; 192; 0; 0; 3; 1; 1; 0;
   247; 3; 65; 67; 0; 0; 0; 0; 73; 69; 78; 68; 174; 66; 96; 130].

(** *** Configuration requests and clearing, in the words of the specification *)

(** An [outputFormat] field is valid when it is one of the three formats. *)
Definition valid_format (v : option json) : Prop :=
  exists s, v = Some (JStr s) /\ In s formats.

(** A [quality] field is valid when its number lies in [10, 100]. *)
Definition valid_quality (rt : Runtime) (v : option json) : Prop :=
  exists q,
    ToNumber rt v = Ok (Finite q) /\ (inject_Z 10 <= q)%Q /\ (q <= inject_Z 100)%Q.

(** The answer to a configuration request as the specification words it:
    the response echoes the effective configuration after the merge. *)
Definition config_echo_by_the_words
    (rt : Runtime) (st : State) (req : ConfigBody) : Prop :=
  snd (post_config rt st req)
  = Replied {| success := true;
               config := CONFIG (fst (post_config rt st req)) |}.

(** Clearing as the specification words it: the store is emptied, the two
    counters are zero, nothing else changes. *)
Definition clear_by_the_words (st : State) : State :=
  set_bytesReceived 0 (set_frameCount 0 (set_latestFrameBuffer None st)).

(** *** Serving a frame, in the words of the specification

    With a frame in the store, a request for format [F] is answered with the
    stored bytes when the stored frame is in format [F]; otherwise the
    stored frame is transcoded to [F] and the result is the answer, the
    stored bytes standing in when the transcode fails. *)
Definition frame_request_by_the_words (rt : Runtime) (st : State) (F : jsstring) : Prop :=
  In F formats ->
  forall frame, latestFrameBuffer st = Some frame ->
    let op := op_toFormat F (quality (CONFIG st)) in
    if in_format F frame then
      body (fst (get_frame rt st F)) = Bytes frame
    else
      snd (get_frame rt st F) = [CallSharp frame op]
      /\ body (fst (get_frame rt st F))
         = Bytes (match sharp_toBuffer rt frame op with
                  | Resolved out => out
                  | Rejected _ | Thrown _ => frame
                  end).

(** *** Ingesting a message, in the words of the specification *)

(** Classification follows the words on every message. *)
Definition classification_by_the_words (rt : Runtime) (data : RawData) : Prop :=
  classify rt data = classify_by_the_words rt data.

(** Normalization of a data URI within the size limit: what follows the
    first comma is base64-decoded and handed on; without a comma, or when
    decoding fails, no bytes reach the transcoder. *)
Definition normalization_by_the_words (rt : Runtime) (st : State) (s : jsstring) : Prop :=
  is_data_url (Some s) = true ->
  len s <= maxFrameSize (CONFIG st) ->
  let calls := snd (on_message rt st (Str s)) in
  (forall pre post, s = pre ++ 44 :: post -> ~ In 44 pre ->
     transcoder_inputs calls
     = match from_base64 rt post with
       | Ok bytes => [bytes]
       | Throw _ => []
       end)
  /\ (~ In 44 s -> transcoder_inputs calls = []).

Definition placeholder_response (F : jsstring) : Response * list Call :=
  (mkResponse 200 (frame_headers F) (Bytes emptyFrame), []).

(** ** Conditional requests

    [res.send] computes an entity tag for the body and, when the request
    is fresh -- it is a [GET] carrying an [If-None-Match] that matches the
    tag, or [*], and no [Cache-Control: no-cache] --, turns an answer with
    a 2xx status into 304 without content type and without body.  The 400
    answer keeps its status, and the error answer of the framework does
    not pass through [res.send]. *)
Definition revalidated (fresh : bool) (r : Response) : Response :=
  if fresh && (200 <=? status r) && (status r <? 300) then
    mkResponse 304
      (filter (fun h => negb (jseq (fst h) (lit "Content-Type"))) (headers r))
      (Bytes [])
  else r.

(** ** The [message] handler around its [await]

    The handler is [async]: it runs up to [await ....toBuffer()], and what
    follows -- the write to [latestFrameBuffer] and the final status -- runs
    when the conversion settles, possibly after other requests and messages
    have been handled. *)

(** A conversion that has been started and has not settled. *)
Record Pending : Type := mkPending {
  from_data_url : bool;
  pending_input : Buffer;
  pending_op : SharpOp
}.

(** The handler up to its [await].  A chain that throws while it is built
    is caught at once; otherwise the conversion is pending. *)
Definition on_message_begin (rt : Runtime) (st : State) (data : RawData)
  : State * option Pending :=
  let st := set_frameCount (frameCount st + 1) st in
  let '(buffer, dataString) := sniff rt data in
  let st :=
    match buffer with
    | Some _ => set_lastFrameType (lit "raw buffer") st
    | None => st
    end in
  if is_data_url dataString then
    let dataString := match dataString with Some s => s | None => [] end in
    if maxFrameSize (CONFIG st) <? len dataString then
      (set_lastFrameType (lit "frame too large") st, None)
    else
      let st := set_bytesReceived (bytesReceived st + len dataString) st in
      let base64Start := (indexOf dataString 44 + 1)%Z in
      let base64Data := substring dataString base64Start in
      match from_base64 rt base64Data with
      | Ok buffer =>
          let op := encoder (CONFIG st) in
          match sharp_toBuffer rt buffer op with
          | Thrown e => (set_lastFrameType (lit "conversion error: " ++ e) st, None)
          | Resolved _ | Rejected _ => (st, Some (mkPending true buffer op))
          end
      | Throw e => (set_lastFrameType (lit "conversion error: " ++ e) st, None)
      end
  else
    match buffer with
    | Some buffer =>
        let st := set_bytesReceived (bytesReceived st + len buffer) st in
        let op := encoder (CONFIG st) in
        match sharp_toBuffer rt buffer op with
        | Thrown _ => (set_lastFrameType (lit "raw buffer error") st, None)
        | Resolved _ | Rejected _ => (st, Some (mkPending false buffer op))
        end
    | None => (set_lastFrameType (lit "unknown format") st, None)
    end.

(** The handler after its [await], on the state as it is by then. *)
Definition on_message_settle (rt : Runtime) (st : State) (p : Pending) : State :=
  match sharp_toBuffer rt (pending_input p) (pending_op p) with
  | Resolved out =>
      let st := set_latestFrameBuffer (Some out) st in
      set_lastFrameType
        ((if from_data_url p then lit "data:image/*" else lit "raw buffer")
         ++ arrow ++ toUpperCase rt (outputFormat (CONFIG st)) ++ tick) st
  | Rejected e =>
      set_lastFrameType
        (if from_data_url p then lit "conversion error: " ++ e
         else lit "raw buffer error") st
  | Thrown _ => st
  end.

(** What happens to the server, one thing at a time: an event arrives (of
    a message only the part before the [await] runs), or the [i]-th pending
    conversion settles. *)
Inductive Moment : Type :=
| Arrives (ev : Event)
| Settles (i : nat).

Definition moment (rt : Runtime) (sv : State * list Pending) (m : Moment)
  : State * list Pending :=
  match m with
  | Arrives (WsMessage data) =>
      let '(st, p) := on_message_begin rt (fst sv) data in
      (st, snd sv ++ match p with Some p => [p] | None => [] end)
  | Arrives ev => (step rt (fst sv) ev, snd sv)
  | Settles i =>
      match nth_error (snd sv) i with
      | Some p =>
          (on_message_settle rt (fst sv) p, firstn i (snd sv) ++ skipn (S i) (snd sv))
      | None => sv
      end
  end.

Definition interleave (rt : Runtime) (sv : State * list Pending) (ms : list Moment)
  : State * list Pending :=
  fold_left (moment rt) ms sv.

Definition is_arrival_of_message (m : Moment) : bool :=
  match m with
  | Arrives (WsMessage _) => true
  | _ => false
  end.

(** ** Statistics, health and the dashboard of [websocket-frame-server.js] *)

(** The decimal digits of an integer, as string conversion prints them. *)
Definition Number_toString (z : Z) : jsstring :=
  lit (NilZero.string_of_int (Z.to_int z)).

(** [Math.floor((Date.now() - serverStartTime) / 1000)] *)
Definition uptime (now : N) (st : State) : Z :=
  ((Z.of_N now - Z.of_N (serverStartTime st)) / 1000)%Z.

(** The three numbers of [uptimeStr]: [Math.floor(uptime / 3600)],
    [Math.floor((uptime % 3600) / 60)] and [uptime % 60]; the remainder has
    the sign of the dividend. *)
Definition uptime_hours (u : Z) : Z := (u / 3600)%Z.
Definition uptime_minutes (u : Z) : Z := (Z.rem u 3600 / 60)%Z.
Definition uptime_seconds (u : Z) : Z := Z.rem u 60.

Definition uptimeStr (now : N) (st : State) : jsstring :=
  let u := uptime now st in
  Number_toString (uptime_hours u) ++ lit "h "
  ++ Number_toString (uptime_minutes u) ++ lit "m "
  ++ Number_toString (uptime_seconds u) ++ lit "s".

(** [(bytesReceived / 1024 / 1024).toFixed(2)].  The two divisions by a
    power of two are exact, and [toFixed(2)] picks the integer number of
    hundredths nearest to the value, the larger one on a tie. *)
Definition dataMB_hundredths (bytes : N) : N :=
  (200 * bytes + 1048576) / 2097152.

Definition two_digits (n : N) : jsstring :=
  if n <? 10 then lit "0" ++ Number_toString (Z.of_N n)
  else Number_toString (Z.of_N n).

Definition toFixed2 (hundredths : N) : jsstring :=
  Number_toString (Z.of_N (hundredths / 100)) ++ lit "."
  ++ two_digits (hundredths mod 100).

(** The body of [app.get('/stats', ...)]. *)
Record Stats : Type := mkStats {
  stats_clients : Z;
  stats_frames : N;
  stats_dataMB : jsstring;
  stats_type : jsstring;
  stats_uptime : Z;
  stats_errors : N
}.

Definition get_stats (now : N) (st : State) : Stats :=
  {| stats_clients := clientCount st;
     stats_frames := frameCount st;
     stats_dataMB := toFixed2 (dataMB_hundredths (bytesReceived st));
     stats_type := lastFrameType st;
     stats_uptime := uptime now st;
     stats_errors := connectionErrors st |}.

(** The body of [app.get('/health', ...)]. *)
Record Health : Type := mkHealth {
  health_status : jsstring;
  health_uptime : Z;
  health_clients : Z;
  health_frames : N
}.

Definition get_health (now : N) (st : State) : Health :=
  {| health_status := lit "healthy";
     health_uptime := uptime now st;
     health_clients := clientCount st;
     health_frames := frameCount st |}.

(** *** Counting events of a history *)

Definition is_message (ev : Event) : bool :=
  match ev with WsMessage _ => true | _ => false end.

Definition is_connection (ev : Event) : bool :=
  match ev with WsConnection => true | _ => false end.

Definition is_close (ev : Event) : bool :=
  match ev with WsClose => true | _ => false end.

Definition is_error (ev : Event) : bool :=
  match ev with WsError => true | _ => false end.

Definition count {A : Type} (p : A -> bool) (l : list A) : N :=
  len (filter p l).

Definition syphon_is_message (ev : Syphon.Event) : bool :=
  match ev with Syphon.WsMessage _ => true | _ => false end.

(** What one message adds to [bytesReceived]: the length of the text of a
    data URL within the limit, the length of a raw buffer, nothing
    otherwise. *)
Definition counted_bytes (rt : Runtime) (st : State) (data : RawData) : N :=
  match classify rt data with
  | DataURI s => if maxFrameSize (CONFIG st) <? len s then 0 else len s
  | RawBinary b => len b
  | Unrecognized => 0
  end.

(** A frame is a product of the pipeline when some input, encoded by the
    output stage of some configuration with an allowed format, resolved to
    it. *)
Definition pipeline_output (rt : Runtime) (out : Buffer) : Prop :=
  exists input cfg,
    In (outputFormat cfg) formats
    /\ sharp_toBuffer rt input (encoder cfg) = Resolved out.

(** What holds of the server state at any time after the start at [now]. *)
Definition state_ok (rt : Runtime) (now : N) (st : State) : Prop :=
  In (outputFormat (CONFIG st)) formats
  /\ valid_quality rt (Some (quality (CONFIG st)))
  /\ maxFrameSize (CONFIG st) = 52428800
  /\ serverStartTime st = now
  /\ (forall out, latestFrameBuffer st = Some out -> pipeline_output rt out).

(** ** A small runtime to run the handlers on

    Text decoding that is exact on 7-bit input, a base64 decoder that skips
    characters outside the alphabet and stops at the first "=", and an image
    pipeline that accepts any input carrying the magic number of one of the
    three containers and answers with the magic number of the target
    followed by 128 zero bytes.  As the real pipeline does, it refuses a
    quality that is not an integer between 1 and 100 before any work is
    scheduled. *)
Module Demo.

Definition unbase64 (c : N) : option N :=
  if (65 <=? c) && (c <=? 90) then Some (c - 65)
  else if (97 <=? c) && (c <=? 122) then Some (c - 71)
  else if (48 <=? c) && (c <=? 57) then Some (c + 4)
  else if (c =? 43) || (c =? 45) then Some 62
  else if (c =? 47) || (c =? 95) then Some 63
  else None.

Fixpoint sextets (s : jsstring) : list N :=
  match s with
  | [] => []
  | c :: s' =>
      if c =? 61 then []
      else match unbase64 c with
           | Some v => v :: sextets s'
           | None => sextets s'
           end
  end.

Fixpoint pack (l : list N) : Buffer :=
  match l with
  | a :: b :: c :: d :: r =>
      (a * 4 + b / 16) :: ((b mod 16) * 16 + c / 4) :: ((c mod 4) * 64 + d) :: pack r
  | [a; b; c] => [a * 4 + b / 16; (b mod 16) * 16 + c / 4]
  | [a; b] => [a * 4 + b / 16]
  | _ => []
  end.

Definition base64 (s : jsstring) : result Buffer := Ok (pack (sextets s)).

Definition magic (F : jsstring) : Buffer :=
  if jseq F (lit "webp") then lit "RIFF" ++ [132; 0; 0; 0] ++ lit "WEBP"
  else if jseq F (lit "jpeg") then [255; 216; 255; 224]
  else png_signature.

Definition quality_ok (q : json) : bool :=
  match q with
  | JNum x => (Qden x =? 1)%positive && Qle_bool 1 x && Qle_bool x (inject_Z 100)
  | _ => false
  end.

Definition op_quality (op : SharpOp) : option json :=
  match op with
  | op_webp q | op_jpeg q | op_toFormat _ q => Some q
  | op_png_quality q => Some (JNum (inject_Z (Z.of_N q)))
  | op_png_level _ => None
  end.

Definition sharp (input : Buffer) (op : SharpOp) : outcome :=
  match op_quality op with
  | Some q =>
      if quality_ok q then
        match frame_format input with
        | Some _ => Resolved (magic (op_format op) ++ repeat 0 128)
        | None => Rejected (lit "Input buffer contains unsupported image format")
        end
      else Thrown (lit "Expected integer between 1 and 100 for quality")
  | None =>
      match frame_format input with
      | Some _ => Resolved (magic (op_format op) ++ repeat 0 128)
      | None => Rejected (lit "Input buffer contains unsupported image format")
      end
  end.

(** An array prints its elements, an object "[object Object]" unless it
    has a property of its own named "toString", which a parsed body can
    only fill with something that is not a function. *)
Definition to_primitive (v : json) : result jsstring :=
  match v with
  | JObj fields =>
      if existsb (fun f => jseq (fst f) (lit "toString")) fields
      then Throw (lit "Cannot convert object to primitive value")
      else Ok (lit "[object Object]")
  | _ => Ok []
  end.

Definition upper (s : jsstring) : jsstring :=
  map (fun c => if (97 <=? c) && (c <=? 122) then c - 32 else c) s.

Definition rt : Runtime :=
  {| toString_utf8 := fun b => b;
     from_base64 := base64;
     sharp_toBuffer := sharp;
     toUpperCase := upper;
     StringToNumber := fun _ => NaN;
     object_toString := to_primitive |}.

(** [pixel_png] as a data URL. *)
Definition pixel_url : jsstring :=
  lit "data:image/png;base64,iVBORw0KGgoAAAANSUhEUgAAAAEAAAABCAIAAACQd1PeAAAADElEQVR42mP4z8AAAAMBAQD3A0FDAAAAAElFTkSuQmCC".

(** The server after one frame was received with the initial
    configuration, and the same after the format was then set to webp. *)
Definition after_one_frame : State :=
  run rt (initial_state 0) [WsMessage (Str pixel_url)].

Definition after_format_change : State :=
  run rt after_one_frame
      [PostConfig (mkConfigBody (Some (JStr (lit "webp"))) None)].

(** The server holding a complete 1x1 PNG image. *)
Definition holding_pixel : State :=
  set_latestFrameBuffer (Some pixel_png) (initial_state 0).

End Demo.

(** Case analysis along every path through the [message] handler. *)
Ltac on_message_branches rt data :=
  unfold on_message;
  destruct (sniff rt data) as [[?|] ?];
  destruct (is_data_url _);
  repeat match goal with
         | |- context [if ?c then _ else _] => destruct c
         | |- context [match from_base64 rt ?x with _ => _ end] =>
             destruct (from_base64 rt x)
         | |- context [match sharp_toBuffer rt ?x ?o with _ => _ end] =>
             destruct (sharp_toBuffer rt x o) eqn:?
         end.

(** Case analysis along every path through the [POST /config] handler. *)
Ltac post_config_branches rt :=
  unfold post_config;
  repeat match goal with
         | |- context [match body_quality ?r with _ => _ end] =>
             destruct (body_quality r) as [?|]
         | |- context [match quality_accepted rt ?v with _ => _ end] =>
             destruct (quality_accepted rt v) as [[|]|] eqn:?
         | |- context [match body_outputFormat ?r with _ => _ end] =>
             destruct (body_outputFormat r) as [[| | |?| |]|]
         | |- context [if format_accepted ?v then _ else _] =>
             destruct (format_accepted v) eqn:?
         end.

(** * Properties *)

Example pixel_png_valid : valid_png pixel_png = true.
Proof. vm_compute. reflexivity. Qed.

Example pixel_url_decodes : Demo.base64 (substring Demo.pixel_url 22) = Ok pixel_png.
Proof. vm_compute. reflexivity. Qed.

Example pixel_url_ingested :
  latestFrameBuffer (fst (on_message Demo.rt (initial_state 0) (Str Demo.pixel_url)))
  = Some (png_signature ++ repeat 0 128).
Proof. vm_compute. reflexivity. Qed.

(** ** Strings and buffers *)

Lemma jseq_refl (s : jsstring) : jseq s s = true.
Proof.
  induction s as [|c s IH]; simpl; [reflexivity|].
  now rewrite N.eqb_refl.
Qed.

Lemma jseq_eq (s t : jsstring) : jseq s t = true <-> s = t.
Proof.
  split.
  - revert t; induction s as [|c s IH]; intros [|d t] H; simpl in H;
      try discriminate; [reflexivity|].
    apply andb_true_iff in H as [Hc Hs].
    apply N.eqb_eq in Hc. subst d. f_equal. now apply IH.
  - intros ->. apply jseq_refl.
Qed.

Lemma jseq_neq (s t : jsstring) : jseq s t = false <-> s <> t.
Proof.
  split.
  - intros H E. apply jseq_eq in E. congruence.
  - intros H. destruct (jseq s t) eqn:E; [|reflexivity].
    apply jseq_eq in E. contradiction.
Qed.

Lemma includes_In (arr : list jsstring) (x : jsstring) :
  includes arr x = true <-> In x arr.
Proof.
  unfold includes. rewrite existsb_exists. split.
  - intros [y [Hy E]]. apply jseq_eq in E. now subst.
  - intros H. exists x. split; [assumption | apply jseq_refl].
Qed.

Lemma startsWith_app (p r : jsstring) : startsWith (p ++ r) p = true.
Proof.
  induction p as [|c p IH]; simpl; [now destruct r|].
  now rewrite N.eqb_refl.
Qed.

Lemma startsWith_prefix (s p : jsstring) :
  startsWith s p = true <-> exists r, s = p ++ r.
Proof.
  split.
  - revert s; induction p as [|c p IH]; intros s H.
    + now exists s.
    + destruct s as [|d s]; simpl in H; [discriminate|].
      apply andb_true_iff in H as [Hc Hs].
      apply N.eqb_eq in Hc. subst d.
      destruct (IH _ Hs) as [r ->]. now exists r.
  - intros [r ->]. apply startsWith_app.
Qed.

Lemma startsWith_nil (p : jsstring) : p <> [] -> startsWith [] p = false.
Proof. destruct p; [congruence | reflexivity]. Qed.

(** The four comparisons of the signature check are a prefix test. *)
Lemma byte_checks_prefix (b : Buffer) :
  byte_is b 0 100 && byte_is b 1 97 && byte_is b 2 116 && byte_is b 3 97
  = startsWith b (lit "data").
Proof.
  change (lit "data") with [100; 97; 116; 97].
  destruct b as [|b0 [|b1 [|b2 [|b3 b]]]]; unfold byte_is;
    cbn [nth_error startsWith];
    rewrite ?andb_false_r, ?andb_true_r; try reflexivity.
  rewrite (N.eqb_sym 100 b0), (N.eqb_sym 97 b1), (N.eqb_sym 116 b2), (N.eqb_sym 97 b3).
  replace (startsWith b []) with true by now destruct b.
  now rewrite andb_true_r, !andb_assoc.
Qed.

Lemma has_signature_prefix (b : Buffer) :
  has_signature b = (10 <? len b) && startsWith b (lit "data").
Proof.
  unfold has_signature. rewrite <- byte_checks_prefix.
  now rewrite !andb_assoc.
Qed.

Lemma has_signature_zero (tl : Buffer) : has_signature (0 :: tl) = false.
Proof.
  rewrite has_signature_prefix.
  change (lit "data") with [100; 97; 116; 97]. cbn [startsWith].
  change (100 =? 0) with false. apply andb_false_r.
Qed.

Lemma len_cons_repeat (x n : N) : len (x :: repeat x (N.to_nat n)) = N.succ n.
Proof.
  unfold len. cbn [List.length].
  now rewrite repeat_length, Nat2N.inj_succ, N2Nat.id.
Qed.

(** [is_data_url] is the prefix test: the empty string has no prefix
    "data:image". *)
Lemma is_data_url_prefix (s : jsstring) :
  is_data_url (Some s) = startsWith s (lit "data:image").
Proof. destruct s; reflexivity. Qed.

Lemma not_In_existsb (c : N) (s : jsstring) :
  existsb (N.eqb c) s = false -> ~ In c s.
Proof.
  intros H Hin.
  assert (E : existsb (N.eqb c) s = true).
  { apply existsb_exists. exists c. split; [assumption | apply N.eqb_refl]. }
  congruence.
Qed.

(** [indexOf] finds the first occurrence. *)
Lemma indexOf_absent (s : jsstring) (c : N) : ~ In c s -> indexOf s c = (-1)%Z.
Proof.
  induction s as [|d s IH]; intros H; simpl; [reflexivity|].
  destruct (N.eqb_spec d c) as [->|Hd].
  - exfalso. apply H. now left.
  - rewrite IH by (intros Hin; apply H; now right). reflexivity.
Qed.

Lemma indexOf_first (pre post : jsstring) (c : N) :
  ~ In c pre -> indexOf (pre ++ c :: post) c = Z.of_nat (List.length pre).
Proof.
  induction pre as [|d pre IH]; intros H; simpl indexOf.
  - now rewrite N.eqb_refl.
  - destruct (N.eqb_spec d c) as [->|Hd].
    + exfalso. apply H. now left.
    + cbn [app]. simpl indexOf.
      destruct (N.eqb_spec d c); [contradiction|].
      rewrite IH by (intros Hin; apply H; now right).
      destruct (Z.ltb_spec (Z.of_nat (List.length pre)) 0); [lia|].
      cbn [List.length]. lia.
Qed.

Lemma indexOf_present (s : jsstring) (c : N) : In c s -> (0 <= indexOf s c)%Z.
Proof.
  induction s as [|d s IH]; intros H; simpl; [destruct H|].
  destruct (N.eqb_spec d c) as [->|Hd]; [lia|].
  destruct H as [H|H]; [congruence|].
  specialize (IH H).
  destruct (Z.ltb_spec (indexOf s c) 0); lia.
Qed.

(** The text the handlers decode: everything after the first comma, or the
    whole text when there is no comma. *)
Lemma base64Data_after_comma (pre post : jsstring) :
  ~ In 44 pre ->
  substring (pre ++ 44 :: post) (indexOf (pre ++ 44 :: post) 44 + 1) = post.
Proof.
  intros H. rewrite indexOf_first by assumption. unfold substring.
  replace (Z.to_nat (Z.of_nat (List.length pre) + 1)) with (1 + List.length pre)%nat by lia.
  rewrite <- skipn_skipn.
  rewrite skipn_app, skipn_all, Nat.sub_diag. reflexivity.
Qed.

Lemma base64Data_no_comma (s : jsstring) :
  ~ In 44 s -> substring s (indexOf s 44 + 1) = s.
Proof. intros H. now rewrite indexOf_absent. Qed.

(** ** Clearing *)

(** C8, as stated, fails: besides the store and the two counters, clearing
    overwrites the status text [lastFrameType]. *)
Lemma clear_changes_status :
  post_clear (initial_state 0) <> clear_by_the_words (initial_state 0).
Proof. intros H. apply (f_equal lastFrameType) in H. vm_compute in H. discriminate. Qed.

(** C8, amended: [POST /clear] empties the frame store, sets [frameCount]
    and [bytesReceived] to zero and the status text to "buffer cleared";
    [connectionErrors], [clientCount], [serverStartTime] and the
    configuration are unchanged; clearing twice is clearing once. *)
Theorem clear_effect (st : State) :
  post_clear st
  = mkState None 0 (clientCount st) 0 (lit "buffer cleared")
            (serverStartTime st) (connectionErrors st) (CONFIG st)
  /\ post_clear (post_clear st) = post_clear st.
Proof. split; reflexivity. Qed.

(** ** Counters *)

(** A configuration request writes [CONFIG] and nothing else. *)
Lemma post_config_only_CONFIG (rt : Runtime) (st : State) (req : ConfigBody) :
  exists cfg, fst (post_config rt st req) = set_CONFIG cfg st.
Proof. post_config_branches rt; eexists; reflexivity. Qed.

Section Counters.

Variable rt : Runtime.

Lemma on_message_connectionErrors (st : State) (data : RawData) :
  connectionErrors (fst (on_message rt st data)) = connectionErrors st.
Proof.
  on_message_branches rt data; reflexivity.
Qed.

Lemma on_message_frameCount (st : State) (data : RawData) :
  frameCount (fst (on_message rt st data)) = frameCount st + 1.
Proof.
  on_message_branches rt data; reflexivity.
Qed.

Lemma on_message_bytesReceived (st : State) (data : RawData) :
  bytesReceived st <= bytesReceived (fst (on_message rt st data)).
Proof.
  on_message_branches rt data; cbn; lia.
Qed.

Lemma post_config_counters (st : State) (req : ConfigBody) :
  let st' := fst (post_config rt st req) in
  frameCount st' = frameCount st /\ bytesReceived st' = bytesReceived st
  /\ connectionErrors st' = connectionErrors st.
Proof. cbv zeta. post_config_branches rt; repeat split. Qed.

Lemma step_connectionErrors (st : State) (ev : Event) :
  connectionErrors st <= connectionErrors (step rt st ev).
Proof.
  destruct ev; cbn [step]; try (destruct (post_config_only_CONFIG rt st req) as [cfg ->]); try (cbn; lia).
  rewrite on_message_connectionErrors. lia.
Qed.

Lemma step_counters (st : State) (ev : Event) :
  ev <> PostClear ->
  frameCount st <= frameCount (step rt st ev)
  /\ bytesReceived st <= bytesReceived (step rt st ev).
Proof.
  intros Hev. destruct ev; cbn [step]; try (destruct (post_config_only_CONFIG rt st req) as [cfg ->]); try (split; cbn; lia).
  - pose proof (on_message_frameCount st data).
    pose proof (on_message_bytesReceived st data).
    split; lia.
  - congruence.
Qed.

(** C9: [frameCount], [bytesReceived] and [connectionErrors] never decrease
    under any event other than [POST /clear], and [connectionErrors] does
    not decrease under [POST /clear] either. *)
Theorem counters_monotone (st : State) (ev : Event) :
  (ev <> PostClear ->
   frameCount st <= frameCount (step rt st ev)
   /\ bytesReceived st <= bytesReceived (step rt st ev))
  /\ connectionErrors st <= connectionErrors (step rt st ev).
Proof.
  split; [apply step_counters | apply step_connectionErrors].
Qed.

(** The same along a whole history without [POST /clear]. *)
Corollary run_counters_monotone (evs : list Event) (st : State) :
  ~ In PostClear evs ->
  frameCount st <= frameCount (run rt st evs)
  /\ bytesReceived st <= bytesReceived (run rt st evs)
  /\ connectionErrors st <= connectionErrors (run rt st evs).
Proof.
  revert st; induction evs as [|ev evs IH]; intros st H; cbn [run fold_left].
  - repeat split; lia.
  - assert (Hev : ev <> PostClear) by (intros ->; apply H; now left).
    destruct (step_counters st ev Hev) as [? ?].
    pose proof (step_connectionErrors st ev).
    destruct (IH (step rt st ev)) as [? [? ?]]; [intros Hin; apply H; now right|].
    unfold run in *. repeat split; lia.
Qed.

End Counters.

Lemma connectionErrors_monotone_run (rt : Runtime) (evs : list Event) (st : State) :
  connectionErrors st <= connectionErrors (run rt st evs).
Proof.
  revert st; induction evs as [|ev evs IH]; intros st; cbn [run fold_left]; [lia|].
  pose proof (step_connectionErrors rt st ev).
  specialize (IH (step rt st ev)). unfold run in IH. lia.
Qed.

Lemma counters_monotone_witness :
  WsMessage (Str Demo.pixel_url) <> PostClear
  /\ frameCount (initial_state 0)
     <= frameCount (step Demo.rt (initial_state 0) (WsMessage (Str Demo.pixel_url)))
  /\ bytesReceived (initial_state 0)
     <= bytesReceived (step Demo.rt (initial_state 0) (WsMessage (Str Demo.pixel_url))).
Proof.
  split; [discriminate|].
  apply (proj1 (counters_monotone Demo.rt (initial_state 0)
                  (WsMessage (Str Demo.pixel_url)))).
  discriminate.
Defined.

(** ** Configuration *)

Section Configuration.

Variable rt : Runtime.

Lemma format_accepted_valid (v : option json) :
  format_accepted v = true <-> valid_format v.
Proof.
  unfold format_accepted, valid_format, format_allowed. split.
  - intros H. apply andb_true_iff in H as [_ H].
    destruct v as [[| | |s| |]|]; try discriminate.
    exists s. split; [reflexivity | now apply includes_In].
  - intros [s [-> Hs]]. apply andb_true_iff. split.
    + destruct s; [|reflexivity]. cbv in Hs. intuition discriminate.
    + now apply includes_In.
Qed.

Lemma Qle_bool_false (x y : Q) : Qle_bool x y = false <-> ~ (x <= y)%Q.
Proof.
  rewrite <- Qle_bool_iff. destruct (Qle_bool x y); split; congruence.
Qed.

(** A number of at least 10 is not zero, so the truthiness test of the
    handler never rejects a quality that is in range. *)
Lemma in_range_truthy (v : option json) (q : Q) :
  ToNumber rt v = Ok (Finite q) -> (inject_Z 10 <= q)%Q -> truthy v = true.
Proof.
  intros Hn Hq.
  destruct v as [[|b|x|s| |]|]; cbn in *; try reflexivity; try discriminate.
  - inversion Hn; subst q. apply Qle_bool_iff in Hq. discriminate.
  - inversion Hn; subst q. destruct b; apply Qle_bool_iff in Hq; discriminate.
  - inversion Hn; subst q. apply negb_true_iff.
    destruct (Qeq_bool x 0) eqn:E; [|reflexivity].
    apply Qeq_bool_iff in E. rewrite E in Hq.
    apply Qle_bool_iff in Hq. discriminate.
  - destruct s; [|reflexivity].
    inversion Hn; subst q. apply Qle_bool_iff in Hq. discriminate.
Qed.

Lemma quality_accepted_valid (v : option json) :
  quality_accepted rt v = Ok true <-> valid_quality rt v.
Proof.
  unfold quality_accepted, valid_quality. split.
  - intros H. destruct (truthy v); [|discriminate].
    destruct (ToNumber rt v) as [[q| | |]|]; try discriminate;
      injection H as H; try discriminate.
    apply andb_true_iff in H as [Hge Hle].
    exists q. cbn in Hge, Hle. apply Qle_bool_iff in Hge, Hle. auto.
  - intros [q [Hn [Hge Hle]]].
    rewrite (in_range_truthy v q Hn Hge), Hn. cbn.
    apply Qle_bool_iff in Hge, Hle. now rewrite Hge, Hle.
Qed.

Lemma post_config_outputFormat (st : State) (req : ConfigBody) :
  outputFormat (CONFIG (fst (post_config rt st req)))
  = match body_outputFormat req with
    | Some (JStr s) =>
        if format_accepted (body_outputFormat req) then s else outputFormat (CONFIG st)
    | _ => outputFormat (CONFIG st)
    end.
Proof.
  post_config_branches rt; reflexivity.
Qed.

Lemma post_config_quality (st : State) (req : ConfigBody) :
  quality (CONFIG (fst (post_config rt st req)))
  = match body_quality req with
    | Some q =>
        match quality_accepted rt (body_quality req) with
        | Ok true => q
        | Ok false | Throw _ => quality (CONFIG st)
        end
    | None => quality (CONFIG st)
    end.
Proof.
  post_config_branches rt; reflexivity.
Qed.

Lemma post_config_maxFrameSize (st : State) (req : ConfigBody) :
  maxFrameSize (CONFIG (fst (post_config rt st req))) = maxFrameSize (CONFIG st).
Proof.
  post_config_branches rt; reflexivity.
Qed.

Lemma post_config_reply (st : State) (req : ConfigBody) :
  snd (post_config rt st req)
  = match quality_accepted rt (body_quality req) with
    | Ok _ => Replied {| success := true; config := CONFIG (fst (post_config rt st req)) |}
    | Throw e => Failed e
    end.
Proof.
  unfold post_config.
  destruct (body_quality req) as [q|]; [|reflexivity].
  destruct (quality_accepted rt (Some q)) as [[|]|]; reflexivity.
Qed.

(** The test of a quality that is absent, null, a boolean, a number or a
    string does not throw. *)
Lemma quality_accepted_primitive (v : option json) :
  match v with
  | Some (JArr _) | Some (JObj _) => True
  | _ => exists flag, quality_accepted rt v = Ok flag
  end.
Proof.
  destruct v as [[|b|x|s| |]|]; try exact I; unfold quality_accepted;
    destruct (truthy _); cbn; eauto.
Qed.


End Configuration.



(** ** Serving the current frame *)

Section Serving.

Variable rt : Runtime.

Lemma get_frame_valid (st : State) (F : jsstring) :
  In F formats ->
  get_frame rt st F
  = match latestFrameBuffer st with
    | Some frame =>
        if 100 <? len frame then
          if negb (jseq F (outputFormat (CONFIG st))) then
            let op := op_toFormat F (quality (CONFIG st)) in
            match sharp_toBuffer rt frame op with
            | Resolved buffer =>
                (mkResponse 200 (frame_headers F) (Bytes buffer), [CallSharp frame op])
            | Rejected _ =>
                (mkResponse 200 (frame_headers F) (Bytes frame), [CallSharp frame op])
            | Thrown e => (mkResponse 500 error_headers (ErrorPage e), [CallSharp frame op])
            end
          else (mkResponse 200 (frame_headers F) (Bytes frame), [])
        else placeholder_response F
    | None => placeholder_response F
    end.
Proof.
  intros H. apply includes_In in H. unfold get_frame. rewrite H. reflexivity.
Qed.

Lemma get_frame_empty (st : State) (F : jsstring) :
  In F formats -> latestFrameBuffer st = None ->
  get_frame rt st F = placeholder_response F.
Proof. intros HF H. rewrite get_frame_valid by assumption. now rewrite H. Qed.

Lemma get_frame_small (st : State) (F : jsstring) (frame : Buffer) :
  In F formats -> latestFrameBuffer st = Some frame -> len frame <= 100 ->
  get_frame rt st F = placeholder_response F.
Proof.
  intros HF H Hlen. rewrite get_frame_valid by assumption. rewrite H.
  destruct (N.ltb_spec 100 (len frame)); [lia | reflexivity].
Qed.

Lemma get_frame_large (st : State) (F : jsstring) (frame : Buffer) :
  In F formats -> latestFrameBuffer st = Some frame -> 100 < len frame ->
  get_frame rt st F
  = if negb (jseq F (outputFormat (CONFIG st))) then
      let op := op_toFormat F (quality (CONFIG st)) in
      match sharp_toBuffer rt frame op with
      | Resolved buffer =>
          (mkResponse 200 (frame_headers F) (Bytes buffer), [CallSharp frame op])
      | Rejected _ =>
          (mkResponse 200 (frame_headers F) (Bytes frame), [CallSharp frame op])
      | Thrown e => (mkResponse 500 error_headers (ErrorPage e), [CallSharp frame op])
      end
    else (mkResponse 200 (frame_headers F) (Bytes frame), []).
Proof.
  intros HF H Hlen. rewrite get_frame_valid by assumption. rewrite H.
  destruct (N.ltb_spec 100 (len frame)); [reflexivity | lia].
Qed.

(** C10: a stored frame of at most 100 bytes is never served: the answer to
    [GET /frame.F] is the built-in placeholder and the image pipeline is not
    called; an answer other than the placeholder means the stored frame is
    longer than 100 bytes, and then the answer is the stored frame itself
    or the outcome of transcoding it.  [GET /preview.png] of the second
    server applies the same threshold. *)
Theorem short_frame_not_served
    (st : State) (F : jsstring) (frame : Buffer)
    (sst : Syphon.State) (sframe : Buffer) :
  In F formats ->
  latestFrameBuffer st = Some frame ->
  Syphon.latestImageBuffer sst = Some sframe ->
  (len frame <= 100 -> get_frame rt st F = placeholder_response F)
  /\ (get_frame rt st F <> placeholder_response F -> 100 < len frame)
  /\ (100 < len frame ->
      get_frame rt st F = (mkResponse 200 (frame_headers F) (Bytes frame), [])
      \/ snd (get_frame rt st F)
         = [CallSharp frame (op_toFormat F (quality (CONFIG st)))])
  /\ (len sframe <= 100 -> body (Syphon.get_preview sst) = Bytes emptyFrame)
  /\ (100 < len sframe -> body (Syphon.get_preview sst) = Bytes sframe).
Proof.
  intros HF H Hs. repeat split.
  - now apply get_frame_small.
  - intros Hne. destruct (N.ltb_spec 100 (len frame)) as [Hl|Hl]; [assumption|].
    exfalso. apply Hne. now apply (get_frame_small st F frame).
  - intros Hl. rewrite (get_frame_large st F frame) by assumption.
    destruct (negb (jseq F (outputFormat (CONFIG st)))); [right | now left].
    cbv zeta. now destruct (sharp_toBuffer rt frame _).
  - intros Hl. unfold Syphon.get_preview. rewrite Hs.
    destruct (N.ltb_spec 100 (len sframe)); [lia | reflexivity].
  - intros Hl. unfold Syphon.get_preview. rewrite Hs.
    destruct (N.ltb_spec 100 (len sframe)); [reflexivity | lia].
Qed.

Lemma in_format_unique (F G : jsstring) (b : Buffer) :
  in_format G b = true -> in_format F b = jseq F G.
Proof.
  unfold in_format. destruct (frame_format b) as [f|]; [|discriminate].
  intros H. apply jseq_eq in H. subst f.
  destruct (jseq F G) eqn:E.
  - apply jseq_eq in E. subst. apply jseq_refl.
  - apply jseq_neq. apply jseq_neq in E. congruence.
Qed.



(** A message that does not produce a new frame leaves the store and the
    configuration as they were, hence also the answer to every frame
    request. *)
Lemma on_message_CONFIG (st : State) (data : RawData) :
  CONFIG (fst (on_message rt st data)) = CONFIG st.
Proof.
  on_message_branches rt data; reflexivity.
Qed.

Lemma on_message_keeps_frame (st : State) (data : RawData) :
  (forall b op out, In (CallSharp b op) (snd (on_message rt st data)) ->
                    sharp_toBuffer rt b op <> Resolved out) ->
  latestFrameBuffer (fst (on_message rt st data)) = latestFrameBuffer st.
Proof.
  on_message_branches rt data; intros H; try reflexivity; exfalso.
  all: match goal with
       | E : sharp_toBuffer rt ?x ?o = Resolved ?out |- _ =>
           apply (H x o out); [cbn; auto | exact E]
       end.
Qed.

(** X18: a message none of whose pipeline calls resolves leaves the answer
    to every frame request exactly as it was before the message. *)
Lemma failed_ingest_keeps_answer (st : State) (data : RawData) (F : jsstring) :
  (forall b op out, In (CallSharp b op) (snd (on_message rt st data)) ->
                    sharp_toBuffer rt b op <> Resolved out) ->
  get_frame rt (fst (on_message rt st data)) F = get_frame rt st F.
Proof.
  intros H. unfold get_frame.
  now rewrite on_message_keeps_frame, on_message_CONFIG.
Qed.

(** C6, checked on the code for a cold start: [GET /frame.png] on an empty
    store is answered with status 200 and the 33 bytes of [emptyFrame], which
    are the PNG signature and one IHDR chunk and nothing else -- no IDAT, no
    IEND -- hence not a PNG image. *)
Theorem placeholder_is_truncated (st : State) :
  latestFrameBuffer st = None ->
  get_frame rt st (lit "png") = placeholder_response (lit "png")
  /\ emptyFrame = firstn 33 pixel_png
  /\ valid_png pixel_png = true
  /\ valid_png emptyFrame = false.
Proof.
  intros H. split.
  - apply get_frame_empty; [|assumption]. cbn. auto.
  - repeat split; vm_compute; reflexivity.
Qed.

End Serving.

Lemma placeholder_is_truncated_witness :
  get_frame Demo.rt (initial_state 0) (lit "png") = placeholder_response (lit "png")
  /\ emptyFrame = firstn 33 pixel_png
  /\ valid_png pixel_png = true
  /\ valid_png emptyFrame = false.
Proof. apply (placeholder_is_truncated Demo.rt (initial_state 0)). reflexivity. Defined.


(** ** Ingesting a message *)

Section Ingestion.

Variable rt : Runtime.

Lemma sniff_text (data : RawData) (s : jsstring) :
  snd (sniff rt data) = Some s -> sniff rt data = (None, Some s).
Proof.
  destruct data as [b|t]; cbn [sniff].
  - destruct (has_signature b); cbn [snd]; [|discriminate].
    now intros [= <-].
  - cbn [snd]. now intros [= <-].
Qed.

Lemma sniff_raw (b : Buffer) :
  has_signature b = false -> sniff rt (Buf b) = (Some b, None).
Proof. intros H. cbn [sniff]. now rewrite H. Qed.

(** The three branches of the handler, one lemma each. *)
Lemma on_message_too_large (st : State) (data : RawData) (s : jsstring) :
  snd (sniff rt data) = Some s ->
  is_data_url (Some s) = true ->
  maxFrameSize (CONFIG st) < len s ->
  on_message rt st data
  = (set_lastFrameType (lit "frame too large")
       (set_frameCount (frameCount st + 1) st), []).
Proof.
  intros Hs Hu Hl. apply sniff_text in Hs. unfold on_message.
  rewrite Hs, Hu. cbn [CONFIG set_frameCount].
  destruct (N.ltb_spec (maxFrameSize (CONFIG st)) (len s)); [reflexivity | lia].
Qed.

Lemma on_message_data_url (st : State) (data : RawData) (s : jsstring) :
  snd (sniff rt data) = Some s ->
  is_data_url (Some s) = true ->
  len s <= maxFrameSize (CONFIG st) ->
  on_message rt st data
  = let st1 := set_bytesReceived (bytesReceived st + len s)
                 (set_frameCount (frameCount st + 1) st) in
    let base64Data := substring s (indexOf s 44 + 1) in
    match from_base64 rt base64Data with
    | Ok buffer =>
        let op := encoder (CONFIG st) in
        match sharp_toBuffer rt buffer op with
        | Resolved out =>
            (set_lastFrameType
               (lit "data:image/*" ++ arrow
                ++ toUpperCase rt (outputFormat (CONFIG st)) ++ tick)
               (set_latestFrameBuffer (Some out) st1),
             [CallBase64 base64Data; CallSharp buffer op])
        | Rejected e | Thrown e =>
            (set_lastFrameType (lit "conversion error: " ++ e) st1,
             [CallBase64 base64Data; CallSharp buffer op])
        end
    | Throw e =>
        (set_lastFrameType (lit "conversion error: " ++ e) st1,
         [CallBase64 base64Data])
    end.
Proof.
  intros Hs Hu Hl. apply sniff_text in Hs. unfold on_message.
  rewrite Hs, Hu. cbn [CONFIG set_frameCount].
  destruct (N.ltb_spec (maxFrameSize (CONFIG st)) (len s)); [lia | reflexivity].
Qed.

Lemma on_message_raw (st : State) (b : Buffer) :
  has_signature b = false ->
  on_message rt st (Buf b)
  = let st1 := set_bytesReceived (bytesReceived st + len b)
                 (set_lastFrameType (lit "raw buffer")
                    (set_frameCount (frameCount st + 1) st)) in
    let op := encoder (CONFIG st) in
    match sharp_toBuffer rt b op with
    | Resolved out =>
        (set_lastFrameType
           (lit "raw buffer" ++ arrow
            ++ toUpperCase rt (outputFormat (CONFIG st)) ++ tick)
           (set_latestFrameBuffer (Some out) st1),
         [CallSharp b op])
    | Rejected _ | Thrown _ =>
        (set_lastFrameType (lit "raw buffer error") st1, [CallSharp b op])
    end.
Proof.
  intros H. unfold on_message. rewrite (sniff_raw b H). reflexivity.
Qed.

Lemma on_message_unknown (st : State) (data : RawData) (ds : option jsstring) :
  sniff rt data = (None, ds) ->
  is_data_url ds = false ->
  on_message rt st data
  = (set_lastFrameType (lit "unknown format")
       (set_frameCount (frameCount st + 1) st), []).
Proof. intros Hs Hu. unfold on_message. now rewrite Hs, Hu. Qed.

(** *** Classification *)

Lemma classify_cases (data : RawData) :
  classify rt data
  = match data with
    | Str s => if startsWith s (lit "data:image") then DataURI s else Unrecognized
    | Buf b =>
        if (10 <? len b) && startsWith b (lit "data") then
          let s := toString_utf8 rt b in
          if startsWith s (lit "data:image") then DataURI s else Unrecognized
        else RawBinary b
    end.
Proof.
  unfold classify. destruct data as [b|s]; cbn [sniff].
  - rewrite <- has_signature_prefix.
    destruct (has_signature b); [|reflexivity].
    now rewrite is_data_url_prefix.
  - now rewrite is_data_url_prefix.
Qed.

Lemma syphon_classify_cases (data : RawData) :
  syphon_classify rt data
  = match data with
    | Str s => if startsWith s (lit "data:image") then DataURI s else Unrecognized
    | Buf b =>
        if startsWith b (lit "data") then
          let s := toString_utf8 rt b in
          if startsWith s (lit "data:image") then DataURI s else Unrecognized
        else Unrecognized
    end.
Proof.
  unfold syphon_classify. destruct data as [b|s]; cbn [Syphon.sniff].
  - rewrite byte_checks_prefix.
    destruct (startsWith b (lit "data")); [|reflexivity].
    now rewrite is_data_url_prefix.
  - now rewrite is_data_url_prefix.
Qed.

(** C3, amended: a textual message, or a binary message longer than 10
    bytes whose first 4 bytes are the ASCII bytes of "data", is treated as
    text and is a DataURI exactly when the text starts with "data:image",
    Unrecognized otherwise; every other binary message is RawBinary, and its
    bytes, unchanged, are the input of the transcoder; an Unrecognized
    message reaches no decoder.  In [syphon-server-fixed.js] the length is
    not looked at and every other binary message is Unrecognized. *)
Theorem message_classification (st : State) (data : RawData) :
  classify rt data
  = match data with
    | Str s => if startsWith s (lit "data:image") then DataURI s else Unrecognized
    | Buf b =>
        if (10 <? len b) && startsWith b (lit "data") then
          let s := toString_utf8 rt b in
          if startsWith s (lit "data:image") then DataURI s else Unrecognized
        else RawBinary b
    end
  /\ (forall b, classify rt data = RawBinary b ->
        data = Buf b
        /\ snd (on_message rt st data) = [CallSharp b (encoder (CONFIG st))])
  /\ (classify rt data = Unrecognized -> snd (on_message rt st data) = [])
  /\ (forall s, classify rt data = DataURI s ->
        snd (sniff rt data) = Some s /\ startsWith s (lit "data:image") = true)
  /\ syphon_classify rt data
     = match data with
       | Str s => if startsWith s (lit "data:image") then DataURI s else Unrecognized
       | Buf b =>
           if startsWith b (lit "data") then
             let s := toString_utf8 rt b in
             if startsWith s (lit "data:image") then DataURI s else Unrecognized
           else Unrecognized
       end.
Proof.
  split; [apply classify_cases|].
  split; [|split; [|split; [|apply syphon_classify_cases]]].
  - intros b H. unfold classify in H.
    destruct data as [d|s]; cbn [sniff] in H.
    + destruct (has_signature d) eqn:Hsig.
      * destruct (is_data_url _); discriminate.
      * cbn in H. injection H as ->. split; [reflexivity|].
        rewrite on_message_raw by assumption. cbv zeta.
        now destruct (sharp_toBuffer rt b _).
    + destruct (is_data_url _); discriminate.
  - intros H. unfold classify in H.
    destruct (sniff rt data) as [buffer ds] eqn:Hs.
    destruct (is_data_url ds) eqn:Hu; [discriminate|].
    destruct buffer; [discriminate|].
    now rewrite (on_message_unknown st data ds).
  - intros s H. unfold classify in H.
    destruct (sniff rt data) as [buffer ds] eqn:Hs.
    destruct (is_data_url ds) eqn:Hu; [|destruct buffer; discriminate].
    destruct ds as [t|]; [|discriminate].
    injection H as <-. split; [reflexivity|].
    now rewrite <- is_data_url_prefix.
Qed.

(** *** Data URIs *)

(** C5, amended: for a data URI within the size limit the text after the
    first comma -- the whole text when there is no comma -- is handed to
    the base64 decoder; when decoding succeeds the decoded bytes are the
    input of the transcoder; when decoding fails a conversion error is
    recorded, the store is unchanged and no bytes reach the transcoder. *)
Theorem data_url_normalization (st : State) (data : RawData) (s : jsstring) :
  snd (sniff rt data) = Some s ->
  is_data_url (Some s) = true ->
  len s <= maxFrameSize (CONFIG st) ->
  forall base64Data,
    (exists pre, s = pre ++ 44 :: base64Data /\ ~ In 44 pre)
    \/ (~ In 44 s /\ base64Data = s) ->
    match from_base64 rt base64Data with
    | Ok bytes =>
        snd (on_message rt st data)
        = [CallBase64 base64Data; CallSharp bytes (encoder (CONFIG st))]
    | Throw e =>
        snd (on_message rt st data) = [CallBase64 base64Data]
        /\ lastFrameType (fst (on_message rt st data)) = lit "conversion error: " ++ e
        /\ latestFrameBuffer (fst (on_message rt st data)) = latestFrameBuffer st
    end.
Proof.
  intros Hs Hu Hl base64Data Hb.
  rewrite (on_message_data_url st data s) by assumption. cbv zeta.
  assert (E : substring s (indexOf s 44 + 1) = base64Data).
  { destruct Hb as [[pre [-> Hpre]] | [Hno ->]].
    - now apply base64Data_after_comma.
    - now apply base64Data_no_comma. }
  rewrite E.
  destruct (from_base64 rt base64Data) as [bytes|e].
  - now destruct (sharp_toBuffer rt bytes _).
  - repeat split.
Qed.

(** *** The stored frame *)

Lemma encoder_format (cfg : Config) :
  In (outputFormat cfg) formats -> op_format (encoder cfg) = outputFormat cfg.
Proof.
  intros H. unfold encoder.
  destruct H as [H|[H|[H|[]]]]; rewrite <- H; reflexivity.
Qed.

(** C2: when a message [data:image/<fmt>;base64,<data>] within the size
    limit is ingested under a configured format [f] of png, webp or jpeg,
    and its image is accepted by the pipeline, the frame in the store
    afterwards is the output of the encoder of format [f] on the decoded
    <data>; for png the encoder is given compression level 6 and no
    quality, whatever quality is configured; for webp and jpeg it is given
    the configured quality. *)
Theorem ingested_frame_format
    (st : State) (data : RawData) (fmt payload : jsstring) (bytes out : Buffer) :
  snd (sniff rt data) = Some (lit "data:image/" ++ fmt ++ lit ";base64," ++ payload) ->
  ~ In 44 fmt ->
  len (lit "data:image/" ++ fmt ++ lit ";base64," ++ payload) <= maxFrameSize (CONFIG st) ->
  In (outputFormat (CONFIG st)) formats ->
  from_base64 rt payload = Ok bytes ->
  sharp_toBuffer rt bytes (encoder (CONFIG st)) = Resolved out ->
  latestFrameBuffer (fst (on_message rt st data)) = Some out
  /\ snd (on_message rt st data)
     = [CallBase64 payload; CallSharp bytes (encoder (CONFIG st))]
  /\ op_format (encoder (CONFIG st)) = outputFormat (CONFIG st)
  /\ (outputFormat (CONFIG st) = lit "png" ->
      forall q, encoder (set_quality q (CONFIG st)) = op_png_level 6)
  /\ (outputFormat (CONFIG st) = lit "webp" ->
      encoder (CONFIG st) = op_webp (quality (CONFIG st)))
  /\ (outputFormat (CONFIG st) = lit "jpeg" ->
      encoder (CONFIG st) = op_jpeg (quality (CONFIG st))).
Proof.
  intros Hs Hfmt Hl Hf Hb Ho.
  set (s := lit "data:image/" ++ fmt ++ lit ";base64," ++ payload) in *.
  assert (Hu : is_data_url (Some s) = true).
  { rewrite is_data_url_prefix. apply startsWith_prefix.
    exists (lit "/" ++ fmt ++ lit ";base64," ++ payload). reflexivity. }
  assert (E : substring s (indexOf s 44 + 1) = payload).
  { replace s with ((lit "data:image/" ++ fmt ++ lit ";base64") ++ 44 :: payload).
    - apply base64Data_after_comma. rewrite !in_app_iff.
      intros [H|[H|H]]; [|contradiction|];
        revert H; apply not_In_existsb; reflexivity.
    - unfold s. rewrite <- !app_assoc. reflexivity. }
  rewrite (on_message_data_url st data s) by assumption. cbv zeta.
  rewrite E, Hb, Ho. cbn [fst snd latestFrameBuffer set_lastFrameType].
  repeat split.
  - now apply encoder_format.
  - intros H q. unfold encoder. cbn [outputFormat set_quality]. now rewrite H.
  - intros H. unfold encoder. now rewrite H.
  - intros H. unfold encoder. now rewrite H.
Qed.

(** *** The size limit *)

(** X20: a data URL longer than [maxFrameSize] is dropped before anything
    is decoded and without being counted in [bytesReceived], the store is
    left alone and the status is "frame too large"; a data URL of up to
    and including [maxFrameSize] characters is counted and handed to the
    base64 decoder. *)
Lemma data_url_size_limit (st : State) (data : RawData) (s : jsstring) :
  snd (sniff rt data) = Some s ->
  is_data_url (Some s) = true ->
  (maxFrameSize (CONFIG st) < len s ->
   snd (on_message rt st data) = []
   /\ bytesReceived (fst (on_message rt st data)) = bytesReceived st
   /\ latestFrameBuffer (fst (on_message rt st data)) = latestFrameBuffer st
   /\ lastFrameType (fst (on_message rt st data)) = lit "frame too large")
  /\ (len s <= maxFrameSize (CONFIG st) ->
      bytesReceived (fst (on_message rt st data)) = bytesReceived st + len s
      /\ hd_error (snd (on_message rt st data))
         = Some (CallBase64 (substring s (indexOf s 44 + 1)))).
Proof.
  intros Hs Hu. split; intros Hl.
  - rewrite (on_message_too_large st data s) by assumption. repeat split.
  - rewrite (on_message_data_url st data s) by assumption. cbv zeta.
    destruct (from_base64 rt _) as [bytes|e]; [|split; reflexivity].
    destruct (sharp_toBuffer rt bytes _); split; reflexivity.
Qed.

(** A [Buffer] without the signature is never measured against
    [maxFrameSize]. *)
Lemma raw_buffer_unchecked (st : State) (b : Buffer) :
  has_signature b = false ->
  bytesReceived (fst (on_message rt st (Buf b))) = bytesReceived st + len b
  /\ snd (on_message rt st (Buf b)) = [CallSharp b (encoder (CONFIG st))]
  /\ lastFrameType (fst (on_message rt st (Buf b))) <> lit "frame too large".
Proof.
  intros H. rewrite on_message_raw by assumption. cbv zeta.
  destruct (sharp_toBuffer rt b _); repeat split; cbn; discriminate.
Qed.

Lemma step_maxFrameSize (st : State) (ev : Event) :
  maxFrameSize (CONFIG (step rt st ev)) = maxFrameSize (CONFIG st).
Proof.
  destruct ev; cbn [step]; try reflexivity.
  - now rewrite on_message_CONFIG.
  - apply post_config_maxFrameSize.
Qed.

Lemma run_maxFrameSize (evs : list Event) (st : State) :
  maxFrameSize (CONFIG (run rt st evs)) = maxFrameSize (CONFIG st).
Proof.
  revert st; induction evs as [|ev evs IH]; intros st; cbn [run fold_left];
    [reflexivity|].
  unfold run in IH. now rewrite IH, step_maxFrameSize.
Qed.

End Ingestion.

(** C4, checked on the code for a raw binary payload: whatever happened
    before, a binary message of 52428801 zero bytes -- one byte more than
    [maxFrameSize] -- is not rejected: it is counted in [bytesReceived],
    handed to the image pipeline, and the status is not "frame too
    large". *)
Theorem oversized_raw_buffer_accepted (rt : Runtime) (now : N) (evs : list Event) :
  let st := run rt (initial_state now) evs in
  let data := 0 :: repeat 0 (N.to_nat 52428800) in
  maxFrameSize (CONFIG st) = 52428800
  /\ len data = 52428801
  /\ bytesReceived (fst (on_message rt st (Buf data))) = bytesReceived st + 52428801
  /\ snd (on_message rt st (Buf data)) = [CallSharp data (encoder (CONFIG st))]
  /\ lastFrameType (fst (on_message rt st (Buf data))) <> lit "frame too large".
Proof.
  intros st data.
  assert (Hlen : len data = 52428801) by exact (len_cons_repeat 0 52428800).
  assert (Hsig : has_signature data = false) by apply has_signature_zero.
  destruct (raw_buffer_unchecked rt st data Hsig) as (Hb & Hc & Hs).
  rewrite Hlen in Hb.
  split; [apply run_maxFrameSize|].
  split; [exact Hlen|].
  split; [exact Hb|].
  split; [exact Hc | exact Hs].
Qed.

(** C3, as stated, fails on binary messages: the five bytes "data:" are
    handed to the image pipeline as a raw image, and the twelve bytes
    "dataset-0001", which do not start with "data:", are treated as text
    and reach no decoder. *)
Lemma classification_not_by_the_words :
  ~ classification_by_the_words Demo.rt (Buf (lit "data:"))
  /\ ~ classification_by_the_words Demo.rt (Buf (lit "dataset-0001"))
  /\ snd (on_message Demo.rt (initial_state 0) (Buf (lit "data:")))
     = [CallSharp (lit "data:") (op_png_level 6)]
  /\ snd (on_message Demo.rt (initial_state 0) (Buf (lit "dataset-0001"))) = [].
Proof.
  unfold classification_by_the_words.
  repeat split; try (vm_compute; reflexivity); vm_compute; discriminate.
Qed.

Lemma message_classification_witness :
  classify Demo.rt (Buf pixel_png) = RawBinary pixel_png
  /\ snd (on_message Demo.rt (initial_state 0) (Buf pixel_png))
     = [CallSharp pixel_png (op_png_level 6)].
Proof.
  split; [reflexivity|].
  destruct (message_classification Demo.rt (initial_state 0) (Buf pixel_png))
    as (_ & H & _).
  apply (H pixel_png). reflexivity.
Defined.

(** C5, as stated, fails without a comma: the data URI "data:image" has
    none, and yet bytes -- the base64 decoding of the whole text -- reach
    the transcoder. *)
Lemma normalization_not_by_the_words :
  ~ normalization_by_the_words Demo.rt (initial_state 0) (lit "data:image").
Proof.
  intros H. destruct H as [_ H]; [reflexivity | vm_compute; discriminate |].
  assert (Hno : ~ In 44 (lit "data:image")) by (apply not_In_existsb; reflexivity).
  specialize (H Hno). vm_compute in H. discriminate.
Qed.

Lemma data_url_normalization_witness :
  snd (on_message Demo.rt (initial_state 0) (Str Demo.pixel_url))
  = [CallBase64 (substring Demo.pixel_url 22);
     CallSharp pixel_png (op_png_level 6)].
Proof.
  assert (Hu : is_data_url (Some Demo.pixel_url) = true) by (vm_compute; reflexivity).
  assert (Hlen : len Demo.pixel_url <= maxFrameSize (CONFIG (initial_state 0)))
    by (vm_compute; discriminate).
  assert (Hc : (exists pre, Demo.pixel_url = pre ++ 44 :: substring Demo.pixel_url 22
                            /\ ~ In 44 pre)
               \/ (~ In 44 Demo.pixel_url
                   /\ substring Demo.pixel_url 22 = Demo.pixel_url)).
  { left. exists (lit "data:image/png;base64"). split.
    - vm_compute. reflexivity.
    - apply not_In_existsb. reflexivity. }
  assert (H := data_url_normalization Demo.rt (initial_state 0)
                 (Str Demo.pixel_url) Demo.pixel_url eq_refl Hu Hlen
                 (substring Demo.pixel_url 22) Hc).
  assert (Hb : from_base64 Demo.rt (substring Demo.pixel_url 22) = Ok pixel_png)
    by (vm_compute; reflexivity).
  rewrite Hb in H. exact H.
Defined.

Lemma ingested_frame_format_witness :
  latestFrameBuffer (fst (on_message Demo.rt (initial_state 0) (Str Demo.pixel_url)))
  = Some (png_signature ++ repeat 0 128).
Proof.
  assert (Hno : ~ In 44 (lit "png")) by (apply not_In_existsb; reflexivity).
  assert (Hlen : len Demo.pixel_url <= maxFrameSize (CONFIG (initial_state 0)))
    by (vm_compute; discriminate).
  assert (Hfmt : In (outputFormat (CONFIG (initial_state 0))) formats)
    by (left; reflexivity).
  assert (Hb : from_base64 Demo.rt (substring Demo.pixel_url 22) = Ok pixel_png)
    by (vm_compute; reflexivity).
  assert (Ho : sharp_toBuffer Demo.rt pixel_png (encoder (CONFIG (initial_state 0)))
               = Resolved (png_signature ++ repeat 0 128))
    by (vm_compute; reflexivity).
  destruct (ingested_frame_format Demo.rt (initial_state 0) (Str Demo.pixel_url)
              (lit "png") (substring Demo.pixel_url 22) pixel_png
              (png_signature ++ repeat 0 128) eq_refl Hno Hlen Hfmt Hb Ho)
    as [H _].
  exact H.
Defined.


Lemma short_frame_not_served_witness :
  get_frame Demo.rt Demo.holding_pixel (lit "png") = placeholder_response (lit "png").
Proof.
  assert (HF : In (lit "png") formats) by (left; reflexivity).
  assert (Hl : len pixel_png <= 100) by (vm_compute; discriminate).
  destruct (short_frame_not_served Demo.rt Demo.holding_pixel (lit "png") pixel_png
              (Syphon.mkState (Some pixel_png) 1 1 92 (lit "data:image/*" ++ tick))
              pixel_png HF eq_refl eq_refl) as [H _].
  exact (H Hl).
Defined.

(** After a quality of 50.5 was accepted by [POST /config], a request for a
    format other than the configured one is answered with status 500. *)
Example frame_request_status_500 :
  status (fst (get_frame Demo.rt
                 (run Demo.rt Demo.after_one_frame
                      [PostConfig (mkConfigBody None (Some (JNum (101 # 2))))])
                 (lit "webp"))) = 500.
Proof. vm_compute. reflexivity. Qed.

(** * Further properties of the two servers *)

(** ** Histories *)

Section Histories.

Variable rt : Runtime.

Lemma run_cons (st : State) (ev : Event) (evs : list Event) :
  run rt st (ev :: evs) = run rt (step rt st ev) evs.
Proof. reflexivity. Qed.

Lemma run_app (st : State) (evs1 evs2 : list Event) :
  run rt st (evs1 ++ evs2) = run rt (run rt st evs1) evs2.
Proof. unfold run. apply fold_left_app. Qed.

Lemma count_cons {A : Type} (p : A -> bool) (x : A) (l : list A) :
  count p (x :: l) = (if p x then 1 else 0) + count p l.
Proof.
  unfold count, len. cbn [filter]. destruct (p x); cbn [List.length]; lia.
Qed.

Lemma step_frameCount (st : State) (ev : Event) :
  ev <> PostClear ->
  frameCount (step rt st ev) = frameCount st + (if is_message ev then 1 else 0).
Proof.
  intros H. destruct ev; cbn [step is_message]; try (destruct (post_config_only_CONFIG rt st req) as [cfg ->]); try (cbn; lia).
  - apply on_message_frameCount.
  - congruence.
Qed.

Lemma run_frameCount (evs : list Event) (st : State) :
  ~ In PostClear evs ->
  frameCount (run rt st evs) = frameCount st + count is_message evs.
Proof.
  revert st; induction evs as [|ev evs IH]; intros st H.
  - cbn. lia.
  - rewrite run_cons, count_cons.
    rewrite IH by (intros Hin; apply H; now right).
    rewrite step_frameCount by (intros ->; apply H; now left). lia.
Qed.

(** X1: [frameCount], the "frames" figure of [/stats] and [/health], is the
    number of messages received since the last [POST /clear] (since the
    start when there was none): every message counts, whatever became of
    it, and nothing else does. *)
Theorem frames_count_messages (st : State) (evs : list Event) :
  (~ In PostClear evs ->
   frameCount (run rt st evs) = frameCount st + count is_message evs)
  /\ (forall pre post, evs = pre ++ PostClear :: post -> ~ In PostClear post ->
        frameCount (run rt st evs) = count is_message post).
Proof.
  split; [apply run_frameCount|].
  intros pre post -> Hpost.
  rewrite run_app, run_cons.
  rewrite run_frameCount by assumption. cbn [step]. reflexivity.
Qed.

Lemma step_clientCount (st : State) (ev : Event) :
  clientCount (step rt st ev)
  = (clientCount st + (if is_connection ev then 1 else 0)
     - (if is_close ev then 1 else 0))%Z.
Proof.
  destruct ev; cbn [step is_connection is_close]; try (destruct (post_config_only_CONFIG rt st req) as [cfg ->]); try (cbn; lia).
  on_message_branches rt data; cbn; lia.
Qed.

(** X2: [clientCount] is a balance: at any time it is its initial value
    plus the number of connections made minus the number of connections
    closed; messages, errors, configuration changes and [POST /clear] do
    not move it. *)
Theorem clients_balance (evs : list Event) (st : State) :
  clientCount (run rt st evs)
  = (clientCount st + Z.of_N (count is_connection evs)
     - Z.of_N (count is_close evs))%Z.
Proof.
  revert st; induction evs as [|ev evs IH]; intros st.
  - cbn. lia.
  - rewrite run_cons, !count_cons, IH, step_clientCount.
    destruct (is_connection ev), (is_close ev); lia.
Qed.

Lemma step_errors (st : State) (ev : Event) :
  connectionErrors (step rt st ev)
  = connectionErrors st + (if is_error ev then 1 else 0).
Proof.
  destruct ev; cbn [step is_error]; try (destruct (post_config_only_CONFIG rt st req) as [cfg ->]); try (cbn; lia).
  rewrite on_message_connectionErrors. lia.
Qed.

(** X3: [connectionErrors] counts the [error] events of the sockets and
    nothing else: a message that is too large, unknown or fails to convert
    does not count as an error, and [POST /clear] does not reset the
    counter. *)
Theorem errors_count_socket_errors (evs : list Event) (st : State) :
  connectionErrors (run rt st evs) = connectionErrors st + count is_error evs.
Proof.
  revert st; induction evs as [|ev evs IH]; intros st.
  - cbn. lia.
  - rewrite run_cons, count_cons, IH, step_errors. lia.
Qed.

(** *** What every reachable state satisfies *)

Lemma initial_state_ok (now : N) : state_ok rt now (initial_state now).
Proof.
  repeat split.
  - left. reflexivity.
  - exists (inject_Z 90). repeat split; cbn; discriminate.
  - discriminate.
Qed.

Lemma on_message_store (st : State) (data : RawData) :
  latestFrameBuffer (fst (on_message rt st data)) = latestFrameBuffer st
  \/ exists input out,
       sharp_toBuffer rt input (encoder (CONFIG st)) = Resolved out
       /\ latestFrameBuffer (fst (on_message rt st data)) = Some out.
Proof.
  on_message_branches rt data; try (left; reflexivity); right;
    match goal with
    | E : sharp_toBuffer rt ?x _ = Resolved ?out |- _ => exists x, out
    end; (split; [assumption | reflexivity]).
Qed.

Lemma on_message_serverStartTime (st : State) (data : RawData) :
  serverStartTime (fst (on_message rt st data)) = serverStartTime st.
Proof. on_message_branches rt data; reflexivity. Qed.

Lemma step_state_ok (now : N) (st : State) (ev : Event) :
  state_ok rt now st -> state_ok rt now (step rt st ev).
Proof.
  intros (Hf & Hq & Hm & Ht & Hs).
  destruct ev; cbn [step]; try (repeat split; assumption).
  - (* message *)
    unfold state_ok. rewrite on_message_CONFIG, on_message_serverStartTime.
    repeat split; try assumption.
    intros out Hout.
    destruct (on_message_store st data) as [E | (input & out' & Hres & E)];
      rewrite E in Hout.
    + now apply Hs.
    + injection Hout as <-. exists input, (CONFIG st). now split.
  - (* configuration *)
    unfold state_ok.
    rewrite post_config_outputFormat, post_config_quality, post_config_maxFrameSize.
    destruct (post_config_only_CONFIG rt st req) as [cfg ->].
    split; [|split; [|split; [assumption|split; [assumption|exact Hs]]]].
    + destruct (body_outputFormat req) as [[| | |s| |]|]; try assumption.
      destruct (format_accepted (Some (JStr s))) eqn:E; [|assumption].
      apply format_accepted_valid in E. destruct E as (s' & [= <-] & Hin).
      assumption.
    + destruct (body_quality req) as [q|]; [|assumption].
      destruct (quality_accepted rt (Some q)) as [[|]|] eqn:E; try assumption.
      now apply quality_accepted_valid.
  - (* clear *)
    repeat split; try assumption. discriminate.
Qed.

Lemma run_state_ok (now : N) (evs : list Event) (st : State) :
  state_ok rt now st -> state_ok rt now (run rt st evs).
Proof.
  revert st; induction evs as [|ev evs IH]; intros st H; [assumption|].
  rewrite run_cons. apply IH. now apply step_state_ok.
Qed.

(** X4: whatever requests and messages the server has seen since it
    started, its configuration is valid: [outputFormat] is one of png, webp
    and jpeg, the number of [quality] lies in [10, 100], and [maxFrameSize]
    is still 50 MB; no request can change the size limit. *)
Theorem configuration_stays_valid (now : N) (evs : list Event) :
  let cfg := CONFIG (run rt (initial_state now) evs) in
  In (outputFormat cfg) formats
  /\ valid_quality rt (Some (quality cfg))
  /\ maxFrameSize cfg = 50 * 1024 * 1024
  /\ op_format (encoder cfg) = outputFormat cfg.
Proof.
  destruct (run_state_ok now evs (initial_state now) (initial_state_ok now))
    as (Hf & Hq & Hm & _).
  repeat split; try assumption. now apply encoder_format.
Qed.

(** X5: the frame store only ever holds what the image pipeline produced:
    at any time it is empty or holds the resolved output of an encoder for
    one of the three formats; the bytes of a message are never stored as
    they came, and a failed conversion never leaves anything in the
    store. *)
Theorem store_holds_pipeline_output (now : N) (evs : list Event) (out : Buffer) :
  latestFrameBuffer (run rt (initial_state now) evs) = Some out ->
  pipeline_output rt out.
Proof.
  destruct (run_state_ok now evs (initial_state now) (initial_state_ok now))
    as (_ & _ & _ & _ & Hs).
  apply Hs.
Qed.

End Histories.

(** ** From a message to the answers *)

Section Composition.

Variable rt : Runtime.

(** X6: ingest, then serve.  When a message makes the pipeline resolve to
    a frame of more than 100 bytes, the next [GET /frame.<outputFormat>] is
    answered 200 with exactly that frame and without another pipeline
    call; this holds for a data URL and for a raw buffer alike. *)
Theorem ingest_then_serve
    (st : State) (data : RawData) (input : Buffer) (op : SharpOp) (out : Buffer) :
  In (outputFormat (CONFIG st)) formats ->
  In (CallSharp input op) (snd (on_message rt st data)) ->
  sharp_toBuffer rt input op = Resolved out ->
  100 < len out ->
  get_frame rt (fst (on_message rt st data)) (outputFormat (CONFIG st))
  = (mkResponse 200 (frame_headers (outputFormat (CONFIG st))) (Bytes out), []).
Proof.
  intros Hf Hin Hres Hl.
  assert (Hst : latestFrameBuffer (fst (on_message rt st data)) = Some out).
  { revert Hin. on_message_branches rt data; cbn [fst snd In]; intros Hin;
      repeat match goal with
             | H : _ \/ _ |- _ => destruct H
             | H : False |- _ => destruct H
             | H : CallBase64 _ = CallSharp _ _ |- _ => discriminate H
             | H : CallSharp _ _ = CallSharp _ _ |- _ => injection H as ? ?; subst
             end; cbn in *; congruence. }
  assert (Hc : CONFIG (fst (on_message rt st data)) = CONFIG st)
    by apply on_message_CONFIG.
  rewrite (get_frame_large rt _ _ out); rewrite ?Hc; try assumption.
  now rewrite jseq_refl.
Qed.

(** X7: the two ways in agree.  When the payload of a data URL within the
    size limit decodes to the bytes [b], and [b] does not look like a data
    URL itself, then sending the data URL and sending [b] as a binary
    message leave the same frame in the store. *)
Theorem data_url_and_raw_buffer_agree
    (st : State) (data : RawData) (s : jsstring) (b : Buffer) :
  snd (sniff rt data) = Some s ->
  is_data_url (Some s) = true ->
  len s <= maxFrameSize (CONFIG st) ->
  from_base64 rt (substring s (indexOf s 44 + 1)) = Ok b ->
  has_signature b = false ->
  latestFrameBuffer (fst (on_message rt st data))
  = latestFrameBuffer (fst (on_message rt st (Buf b))).
Proof.
  intros Hs Hu Hl Hb Hsig.
  rewrite (on_message_data_url rt st data s) by assumption.
  rewrite (on_message_raw rt st b) by assumption. cbv zeta. rewrite Hb.
  now destruct (sharp_toBuffer rt b _).
Qed.

(** Handling a message in one go is its first part followed at once by
    the settling of its conversion. *)
Lemma on_message_begin_settle (st : State) (data : RawData) :
  fst (on_message rt st data)
  = match on_message_begin rt st data with
    | (st', Some p) => on_message_settle rt st' p
    | (st', None) => st'
    end.
Proof.
  unfold on_message, on_message_begin.
  destruct (sniff rt data) as [[b|] ds]; destruct (is_data_url ds);
    repeat match goal with
           | |- context [if ?c then _ else _] => destruct c
           | |- context [match from_base64 rt ?x with _ => _ end] =>
               destruct (from_base64 rt x)
           | |- context [match sharp_toBuffer rt ?x ?o with _ => _ end] =>
               destruct (sharp_toBuffer rt x o) eqn:?
           end; try reflexivity;
    unfold on_message_settle; cbn [pending_input pending_op from_data_url];
    match goal with
    | E : sharp_toBuffer rt _ _ = _ |- _ => rewrite E
    end; reflexivity.
Qed.

Lemma moment_keeps_empty (sv : State * list Pending) (m : Moment) :
  is_arrival_of_message m = false ->
  latestFrameBuffer (fst sv) = None -> snd sv = [] ->
  latestFrameBuffer (fst (moment rt sv m)) = None /\ snd (moment rt sv m) = [].
Proof.
  intros Hm Hst Hp. destruct sv as [st ps]. cbn [fst snd] in *. subst ps.
  destruct m as [ev|i].
  - destruct ev; try discriminate; cbn [moment step fst snd]; split;
      try reflexivity; try assumption.
    destruct (post_config_only_CONFIG rt st req) as [cfg ->]. exact Hst.
  - cbn [moment snd]. destruct i; cbn [nth_error fst snd]; now split.
Qed.

Lemma interleave_keeps_empty (ms : list Moment) (sv : State * list Pending) :
  forallb (fun m => negb (is_arrival_of_message m)) ms = true ->
  latestFrameBuffer (fst sv) = None -> snd sv = [] ->
  latestFrameBuffer (fst (interleave rt sv ms)) = None.
Proof.
  revert sv; induction ms as [|m ms IH]; intros sv H Hst Hp; [assumption|].
  cbn [forallb] in H. apply andb_true_iff in H as [Hm H].
  apply negb_true_iff in Hm.
  destruct (moment_keeps_empty sv m Hm Hst Hp) as [Hst' Hp'].
  change (interleave rt sv (m :: ms)) with (interleave rt (moment rt sv m) ms).
  now apply IH.
Qed.

(** X8: after [POST /clear] with no conversion still in flight, and until
    the next message arrives, every request for a valid format is answered
    with the placeholder, whatever else happens in between (connections,
    configuration changes, other requests, further clears). *)
Theorem clear_then_placeholder (st : State) (ms : list Moment) (F : jsstring) :
  forallb (fun m => negb (is_arrival_of_message m)) ms = true ->
  In F formats ->
  get_frame rt (fst (interleave rt (post_clear st, []) ms)) F
  = placeholder_response F.
Proof.
  intros H HF. apply get_frame_empty; [assumption|].
  now apply interleave_keeps_empty.
Qed.

(** X9: a request for anything but png, webp or jpeg -- the comparison is
    exact, so "jpg" and "PNG" are refused too -- is answered 400 with a
    text, without headers of an image and without a look at the store. *)
Theorem unknown_format_refused (st : State) (F : jsstring) :
  ~ In F formats ->
  get_frame rt st F
  = (mkResponse 400 [] (Text (lit "Invalid format. Use png, webp, or jpeg")), []).
Proof.
  intros H. unfold get_frame.
  destruct (includes formats F) eqn:E; [|reflexivity].
  apply includes_In in E. contradiction.
Qed.

(** *** What one message does to the statistics *)

Lemma on_message_clientCount (st : State) (data : RawData) :
  clientCount (fst (on_message rt st data)) = clientCount st.
Proof. on_message_branches rt data; reflexivity. Qed.

(** X10: what a message adds to [bytesReceived] depends on its kind only,
    not on whether the conversion succeeds: the length of the text for a
    data URL within the limit, the length of the buffer for a raw buffer,
    nothing for a data URL over the limit or an unrecognized message.  The
    configuration, [clientCount], [connectionErrors] and [serverStartTime]
    are never touched by a message. *)
Theorem message_accounting (st : State) (data : RawData) :
  let st' := fst (on_message rt st data) in
  bytesReceived st' = bytesReceived st + counted_bytes rt st data
  /\ CONFIG st' = CONFIG st
  /\ clientCount st' = clientCount st
  /\ connectionErrors st' = connectionErrors st
  /\ serverStartTime st' = serverStartTime st.
Proof.
  cbv zeta. split; [|split; [apply on_message_CONFIG|split;
    [apply on_message_clientCount|split;
      [apply on_message_connectionErrors|apply on_message_serverStartTime]]]].
  unfold counted_bytes, classify, on_message.
  destruct (sniff rt data) as [[b|] ds]; destruct (is_data_url ds) eqn:Hu.
  - destruct ds as [s|]; [|discriminate]. cbn [CONFIG set_lastFrameType set_frameCount].
    destruct (maxFrameSize (CONFIG st) <? len s); [cbn; lia|].
    destruct (from_base64 rt _); [destruct (sharp_toBuffer rt _ _)|]; reflexivity.
  - destruct (sharp_toBuffer rt _ _); reflexivity.
  - destruct ds as [s|]; [|discriminate]. cbn [CONFIG set_frameCount].
    destruct (maxFrameSize (CONFIG st) <? len s); [cbn; lia|].
    destruct (from_base64 rt _); [destruct (sharp_toBuffer rt _ _)|]; reflexivity.
  - cbn. lia.
Qed.

(** X11: the status text tells what became of the last message: it is
    "unknown format" exactly when the message was unrecognized, and "frame
    too large" exactly when it was a data URL longer than [maxFrameSize]. *)
Theorem status_tells_outcome (st : State) (data : RawData) :
  let status := lastFrameType (fst (on_message rt st data)) in
  (status = lit "unknown format" <-> classify rt data = Unrecognized)
  /\ (status = lit "frame too large"
      <-> exists s, classify rt data = DataURI s /\ maxFrameSize (CONFIG st) < len s).
Proof.
  cbv zeta. unfold classify, on_message.
  destruct (sniff rt data) as [buffer ds]; destruct (is_data_url ds) eqn:Hu.
  - (* the data-URL branch *)
    destruct ds as [s|]; [|discriminate].
    assert (Hc : CONFIG match buffer with
                        | Some _ => set_lastFrameType (lit "raw buffer")
                                      (set_frameCount (frameCount st + 1) st)
                        | None => set_frameCount (frameCount st + 1) st
                        end = CONFIG st) by now destruct buffer.
    rewrite Hc.
    destruct (N.ltb_spec (maxFrameSize (CONFIG st)) (len s)) as [Hl|Hl].
    + split; split.
      * intros H. destruct buffer; cbn in H; discriminate.
      * discriminate.
      * intros _. now exists s.
      * intros _. now destruct buffer.
    + split; split.
      * destruct (from_base64 rt _); [destruct (sharp_toBuffer rt _ _)|];
          destruct buffer; cbn; discriminate.
      * discriminate.
      * destruct (from_base64 rt _); [destruct (sharp_toBuffer rt _ _)|];
          destruct buffer; cbn; discriminate.
      * intros (s' & [= <-] & Hs'). lia.
  - destruct buffer as [b|].
    + (* the raw-buffer branch *)
      split; split.
      * destruct (sharp_toBuffer rt _ _); cbn; discriminate.
      * discriminate.
      * destruct (sharp_toBuffer rt _ _); cbn; discriminate.
      * intros (s' & E & _). discriminate.
    + (* the final else *)
      split; split.
      * reflexivity.
      * reflexivity.
      * cbn. discriminate.
      * intros (s' & E & _). discriminate.
Qed.

End Composition.

(** ** Uptime and data volume *)

(** X12: with a clock that has not gone back behind the start time, the
    uptime of [/stats] and [/health] is the number of whole seconds since
    the start, and the three numbers the dashboard prints as "h m s" are
    its decomposition: hours, minutes below 60 and seconds below 60 that
    add up to the uptime again. *)
Theorem uptime_parts (now : N) (st : State) :
  serverStartTime st <= now ->
  let u := uptime now st in
  (0 <= u
   /\ 1000 * u <= Z.of_N now - Z.of_N (serverStartTime st) < 1000 * (u + 1)
   /\ 3600 * uptime_hours u + 60 * uptime_minutes u + uptime_seconds u = u
   /\ 0 <= uptime_hours u
   /\ 0 <= uptime_minutes u < 60
   /\ 0 <= uptime_seconds u < 60)%Z.
Proof.
  intros H u.
  assert (Hu : (0 <= u)%Z) by (unfold u, uptime; apply Z.div_pos; lia).
  unfold uptime_hours, uptime_minutes, uptime_seconds.
  rewrite !Z.rem_mod_nonneg by lia.
  split; [assumption|]. split.
  - unfold u, uptime.
    pose proof (Z.div_mod (Z.of_N now - Z.of_N (serverStartTime st)) 1000 ltac:(lia)).
    pose proof (Z.mod_pos_bound (Z.of_N now - Z.of_N (serverStartTime st)) 1000 ltac:(lia)).
    lia.
  - pose proof (Z.div_mod u 3600 ltac:(lia)).
    pose proof (Z.mod_pos_bound u 3600 ltac:(lia)).
    pose proof (Z.div_mod (u mod 3600) 60 ltac:(lia)).
    pose proof (Z.mod_pos_bound (u mod 3600) 60 ltac:(lia)).
    pose proof (Z.div_mod u 60 ltac:(lia)).
    pose proof (Z.mod_pos_bound u 60 ltac:(lia)).
    assert (0 <= u / 3600)%Z by (apply Z.div_pos; lia).
    assert (0 <= (u mod 3600) / 60)%Z by (apply Z.div_pos; lia).
    repeat split; lia.
Qed.

Lemma uptime_parts_witness :
  (3600 * uptime_hours (uptime 3725999 (initial_state 0))
   + 60 * uptime_minutes (uptime 3725999 (initial_state 0))
   + uptime_seconds (uptime 3725999 (initial_state 0))
   = uptime 3725999 (initial_state 0))%Z.
Proof.
  assert (H : serverStartTime (initial_state 0) <= 3725999)
    by (vm_compute; discriminate).
  destruct (uptime_parts 3725999 (initial_state 0) H) as (_ & _ & E & _).
  exact E.
Defined.

Example uptimeStr_example :
  uptimeStr 3725999 (initial_state 0) = lit "1h 2m 5s".
Proof. vm_compute. reflexivity. Qed.

(** X13: the data volume of [/stats], counted in hundredths of a
    megabyte, is the byte counter divided by 2^20 and rounded to the
    nearest hundredth: it is off by at most half a hundredth, exact for
    whole megabytes, and it does not decrease when the byte counter
    grows. *)
Theorem dataMB_rounding (bytes more k : N) :
  1048576 * dataMB_hundredths bytes <= 100 * bytes + 524288
  /\ 100 * bytes < 1048576 * dataMB_hundredths bytes + 524288
  /\ dataMB_hundredths bytes <= dataMB_hundredths (bytes + more)
  /\ dataMB_hundredths (k * 1048576) = 100 * k.
Proof.
  unfold dataMB_hundredths.
  assert (A : 1048576 * ((200 * bytes + 1048576) / 2097152) <= 100 * bytes + 524288
              /\ 100 * bytes < 1048576 * ((200 * bytes + 1048576) / 2097152) + 524288).
  { pose proof (N.div_mod (200 * bytes + 1048576) 2097152 ltac:(lia)) as Hq.
    pose proof (N.mod_upper_bound (200 * bytes + 1048576) 2097152 ltac:(lia)) as Hr.
    revert Hq Hr.
    generalize ((200 * bytes + 1048576) / 2097152).
    generalize ((200 * bytes + 1048576) mod 2097152).
    intros r q Hq Hr. lia. }
  split; [apply A|]. split; [apply A|]. split.
  - apply N.Div0.div_le_mono. lia.
  - replace (200 * (k * 1048576) + 1048576) with (1048576 + (100 * k) * 2097152) by lia.
    rewrite N.div_add by lia. reflexivity.
Qed.

Example dataMB_example :
  stats_dataMB (get_stats 0 (set_bytesReceived 1572864 (initial_state 0))) = lit "1.50"
  /\ stats_dataMB (get_stats 0 (initial_state 0)) = lit "0.00".
Proof. split; vm_compute; reflexivity. Qed.

(** ** The second server *)

Section SyphonServer.

Variable rt : Runtime.

Lemma syphon_on_message_frameCount (st : Syphon.State) (data : RawData) :
  Syphon.frameCount (fst (Syphon.on_message rt st data)) = Syphon.frameCount st + 1.
Proof.
  unfold Syphon.on_message.
  destruct (is_data_url _); [|reflexivity].
  destruct (from_base64 rt _); [destruct (sharp_toBuffer rt _ _)|]; reflexivity.
Qed.

(** X14: in [syphon-server-fixed.js] the frame counter is the number of
    messages ever received: every message counts, and no request or event
    resets or lowers it (that server has no clear operation). *)
Theorem syphon_frames_count_messages (evs : list Syphon.Event) (st : Syphon.State) :
  Syphon.frameCount (Syphon.run rt st evs)
  = Syphon.frameCount st + count syphon_is_message evs.
Proof.
  revert st; induction evs as [|ev evs IH]; intros st.
  - cbn. lia.
  - change (Syphon.run rt st (ev :: evs))
      with (Syphon.run rt (Syphon.step rt st ev) evs).
    rewrite count_cons, IH.
    destruct ev; cbn [Syphon.step syphon_is_message]; try (cbn; lia).
    rewrite syphon_on_message_frameCount. lia.
Qed.

(** X15: what one message does in [syphon-server-fixed.js].  A data URL of
    any length -- there is no size limit -- adds the length of its text to
    [bytesReceived] and is handed to the base64 decoder; any other message
    changes nothing but the frame counter and the status "unknown format":
    in particular a raw image sent as a binary message is ignored. *)
Theorem syphon_message_accounting (st : Syphon.State) (data : RawData) :
  let st' := fst (Syphon.on_message rt st data) in
  let calls := snd (Syphon.on_message rt st data) in
  Syphon.clientCount st' = Syphon.clientCount st
  /\ match syphon_classify rt data with
     | DataURI s =>
         Syphon.bytesReceived st' = Syphon.bytesReceived st + len s
         /\ hd_error calls = Some (CallBase64 (substring s (indexOf s 44 + 1)))
     | RawBinary _ | Unrecognized =>
         Syphon.bytesReceived st' = Syphon.bytesReceived st
         /\ Syphon.latestImageBuffer st' = Syphon.latestImageBuffer st
         /\ Syphon.lastDataType st' = lit "unknown format"
         /\ calls = []
     end.
Proof.
  cbv zeta. unfold syphon_classify, Syphon.on_message.
  destruct (is_data_url _); [|repeat split].
  destruct (from_base64 rt _); [destruct (sharp_toBuffer rt _ _)|]; repeat split.
Qed.

Lemma syphon_on_message_store (st : Syphon.State) (data : RawData) :
  Syphon.latestImageBuffer (fst (Syphon.on_message rt st data))
  = Syphon.latestImageBuffer st
  \/ exists input out,
       sharp_toBuffer rt input (op_png_quality 100) = Resolved out
       /\ In (CallSharp input (op_png_quality 100))
             (snd (Syphon.on_message rt st data))
       /\ Syphon.latestImageBuffer (fst (Syphon.on_message rt st data)) = Some out.
Proof.
  unfold Syphon.on_message.
  destruct (is_data_url _); [|now left].
  destruct (from_base64 rt _) as [buffer|]; [|now left].
  destruct (sharp_toBuffer rt buffer _) eqn:E; try (now left).
  right. exists buffer, out. repeat split; [assumption | cbn; auto].
Qed.

(** X16: the image store of [syphon-server-fixed.js] only ever holds PNG
    encodings made by the pipeline: at any time it is empty or holds the
    resolved output of [sharp(...).png({ quality: 100 })]. *)
Theorem syphon_store_holds_png (evs : list Syphon.Event) (out : Buffer) :
  Syphon.latestImageBuffer (Syphon.run rt Syphon.initial_state evs) = Some out ->
  exists input, sharp_toBuffer rt input (op_png_quality 100) = Resolved out.
Proof.
  assert (G : forall st,
             (forall o, Syphon.latestImageBuffer st = Some o ->
                exists input, sharp_toBuffer rt input (op_png_quality 100) = Resolved o) ->
             forall o, Syphon.latestImageBuffer (Syphon.run rt st evs) = Some o ->
                exists input, sharp_toBuffer rt input (op_png_quality 100) = Resolved o).
  { induction evs as [|ev evs IH]; intros st Hst; [assumption|].
    change (Syphon.run rt st (ev :: evs))
      with (Syphon.run rt (Syphon.step rt st ev) evs).
    apply IH. destruct ev; cbn [Syphon.step]; try assumption.
    intros o Ho.
    destruct (syphon_on_message_store st data) as [E | (input & o' & Hres & _ & E)];
      rewrite E in Ho.
    - now apply Hst.
    - injection Ho as <-. now exists input. }
  apply G. discriminate.
Qed.

(** X17: ingest, then preview.  When a message makes the pipeline resolve
    to an image of more than 100 bytes, the next [GET /preview.png] is
    answered 200 as image/png with exactly that image. *)
Theorem syphon_ingest_then_preview
    (st : Syphon.State) (data : RawData) (input : Buffer) (op : SharpOp) (out : Buffer) :
  In (CallSharp input op) (snd (Syphon.on_message rt st data)) ->
  sharp_toBuffer rt input op = Resolved out ->
  100 < len out ->
  Syphon.get_preview (fst (Syphon.on_message rt st data))
  = mkResponse 200 (frame_headers (lit "png")) (Bytes out).
Proof.
  intros Hin Hres Hl.
  assert (Hst : Syphon.latestImageBuffer (fst (Syphon.on_message rt st data)) = Some out).
  { revert Hin. unfold Syphon.on_message.
    destruct (is_data_url _); [|intros []].
    destruct (from_base64 rt _) as [buffer|];
      [destruct (sharp_toBuffer rt buffer _) eqn:E|];
      cbn [fst snd In]; intros Hin;
      repeat match goal with
             | H : _ \/ _ |- _ => destruct H
             | H : False |- _ => destruct H
             | H : CallBase64 _ = CallSharp _ _ |- _ => discriminate H
             | H : CallSharp _ _ = CallSharp _ _ |- _ => injection H as ? ?; subst
             end; cbn in *; congruence. }
  unfold Syphon.get_preview. rewrite Hst.
  destruct (N.ltb_spec 100 (len out)); [reflexivity | lia].
Qed.

End SyphonServer.

(** ** Configuration requests and headers *)

Section Requests.

Variable rt : Runtime.

(** X21: sending the same [POST /config] body twice has the effect of
    sending it once, with the same response both times: whether a field is
    accepted depends on the body alone, not on what is configured. *)
Theorem config_request_idempotent (st : State) (req : ConfigBody) :
  post_config rt (fst (post_config rt st req)) req = post_config rt st req.
Proof.
  post_config_branches rt; reflexivity.
Qed.

(** X22: every answer with status 200 to a frame request carries the
    content type of the format that was asked for, [image/F], together
    with [Cache-Control: no-cache] and [Access-Control-Allow-Origin: *] --
    also when the body is the placeholder or the stored frame that could
    not be transcoded. *)
Theorem content_type_follows_request (st : State) (F : jsstring) :
  status (fst (get_frame rt st F)) = 200 ->
  In F formats
  /\ headers (fst (get_frame rt st F))
     = [ (lit "Content-Type", lit "image/" ++ F);
         (lit "Cache-Control", lit "no-cache");
         (lit "Access-Control-Allow-Origin", lit "*") ].
Proof.
  intros H.
  assert (HF : In F formats).
  { apply includes_In. unfold get_frame in H.
    destruct (includes formats F); [reflexivity | discriminate]. }
  split; [assumption|].
  rewrite get_frame_valid in * by assumption.
  destruct (latestFrameBuffer st) as [frame|]; [|reflexivity].
  destruct (100 <? len frame); [|reflexivity].
  destruct (negb _); [|reflexivity].
  cbv zeta in *. destruct (sharp_toBuffer rt frame _); try reflexivity.
  discriminate.
Qed.

End Requests.

(** ** Instances *)

Lemma frames_count_messages_witness :
  frameCount (run Demo.rt (initial_state 0)
                [WsMessage (Str Demo.pixel_url); PostClear;
                 WsMessage (Buf (lit "dataset-0001")); GetStats;
                 WsMessage (Str (lit "hello"))])
  = 2.
Proof.
  destruct (frames_count_messages Demo.rt (initial_state 0)
              [WsMessage (Str Demo.pixel_url); PostClear;
               WsMessage (Buf (lit "dataset-0001")); GetStats;
               WsMessage (Str (lit "hello"))]) as [_ H].
  apply (H [WsMessage (Str Demo.pixel_url)]
           [WsMessage (Buf (lit "dataset-0001")); GetStats;
            WsMessage (Str (lit "hello"))]).
  - reflexivity.
  - intros [E|[E|[E|[]]]]; discriminate.
Defined.

Lemma store_holds_pipeline_output_witness :
  pipeline_output Demo.rt (png_signature ++ repeat 0 128).
Proof.
  apply (store_holds_pipeline_output Demo.rt 0 [WsMessage (Str Demo.pixel_url)]).
  vm_compute. reflexivity.
Defined.

Lemma ingest_then_serve_witness :
  get_frame Demo.rt (fst (on_message Demo.rt (initial_state 0) (Str Demo.pixel_url)))
            (lit "png")
  = (mkResponse 200 (frame_headers (lit "png"))
       (Bytes (png_signature ++ repeat 0 128)), []).
Proof.
  assert (Hf : In (outputFormat (CONFIG (initial_state 0))) formats)
    by (left; reflexivity).
  assert (Hin : In (CallSharp pixel_png (op_png_level 6))
                   (snd (on_message Demo.rt (initial_state 0) (Str Demo.pixel_url))))
    by (vm_compute; auto).
  assert (Hres : sharp_toBuffer Demo.rt pixel_png (op_png_level 6)
                 = Resolved (png_signature ++ repeat 0 128))
    by (vm_compute; reflexivity).
  assert (Hl : 100 < len (png_signature ++ repeat 0 128))
    by (vm_compute; reflexivity).
  exact (ingest_then_serve Demo.rt (initial_state 0) (Str Demo.pixel_url)
           pixel_png (op_png_level 6) (png_signature ++ repeat 0 128)
           Hf Hin Hres Hl).
Defined.

Lemma data_url_and_raw_buffer_agree_witness :
  latestFrameBuffer (fst (on_message Demo.rt (initial_state 0) (Str Demo.pixel_url)))
  = latestFrameBuffer (fst (on_message Demo.rt (initial_state 0) (Buf pixel_png))).
Proof.
  assert (Hu : is_data_url (Some Demo.pixel_url) = true) by (vm_compute; reflexivity).
  assert (Hl : len Demo.pixel_url <= maxFrameSize (CONFIG (initial_state 0)))
    by (vm_compute; discriminate).
  assert (Hb : from_base64 Demo.rt
                 (substring Demo.pixel_url (indexOf Demo.pixel_url 44 + 1))
               = Ok pixel_png)
    by (vm_compute; reflexivity).
  assert (Hsig : has_signature pixel_png = false) by (vm_compute; reflexivity).
  exact (data_url_and_raw_buffer_agree Demo.rt (initial_state 0)
           (Str Demo.pixel_url) Demo.pixel_url pixel_png eq_refl Hu Hl Hb Hsig).
Defined.

Lemma clear_then_placeholder_witness :
  get_frame Demo.rt
    (fst (interleave Demo.rt (post_clear Demo.after_one_frame, [])
            [Arrives (PostConfig (mkConfigBody (Some (JStr (lit "webp"))) None));
             Arrives WsConnection; Settles 0; Arrives (GetFrame (lit "png"))]))
    (lit "webp")
  = placeholder_response (lit "webp").
Proof.
  apply (clear_then_placeholder Demo.rt Demo.after_one_frame).
  - reflexivity.
  - right. left. reflexivity.
Defined.

(** A conversion that was started before [POST /clear] and settles after
    it puts its frame into the cleared store. *)
Example clear_overtaken_by_conversion :
  latestFrameBuffer
    (fst (interleave Demo.rt (initial_state 0, [])
            [Arrives (WsMessage (Str Demo.pixel_url)); Arrives PostClear; Settles 0]))
  = Some (png_signature ++ repeat 0 128).
Proof. vm_compute. reflexivity. Qed.

Lemma unknown_format_refused_witness :
  status (fst (get_frame Demo.rt Demo.after_one_frame (lit "jpg"))) = 400.
Proof.
  assert (H : ~ In (lit "jpg") formats).
  { intros H. apply includes_In in H. vm_compute in H. discriminate. }
  rewrite (unknown_format_refused Demo.rt Demo.after_one_frame (lit "jpg") H).
  reflexivity.
Defined.

Lemma failed_ingest_keeps_answer_witness :
  get_frame Demo.rt
    (fst (on_message Demo.rt Demo.after_one_frame (Buf [1; 2; 3]))) (lit "png")
  = get_frame Demo.rt Demo.after_one_frame (lit "png").
Proof.
  apply (failed_ingest_keeps_answer Demo.rt Demo.after_one_frame (Buf [1; 2; 3])).
  intros b op out Hin.
  assert (E : snd (on_message Demo.rt Demo.after_one_frame (Buf [1; 2; 3]))
              = [CallSharp [1; 2; 3] (op_png_level 6)])
    by (vm_compute; reflexivity).
  rewrite E in Hin. destruct Hin as [Hin|[]].
  injection Hin as <- <-. vm_compute. discriminate.
Defined.


Lemma data_url_size_limit_witness :
  bytesReceived (fst (on_message Demo.rt (initial_state 0) (Str Demo.pixel_url)))
  = bytesReceived (initial_state 0) + len Demo.pixel_url.
Proof.
  assert (Hu : is_data_url (Some Demo.pixel_url) = true) by (vm_compute; reflexivity).
  assert (Hl : len Demo.pixel_url <= maxFrameSize (CONFIG (initial_state 0)))
    by (vm_compute; discriminate).
  destruct (data_url_size_limit Demo.rt (initial_state 0) (Str Demo.pixel_url)
              Demo.pixel_url eq_refl Hu) as [_ H].
  destruct (H Hl) as [E _]. exact E.
Defined.

Lemma syphon_store_holds_png_witness :
  exists input,
    sharp_toBuffer Demo.rt input (op_png_quality 100)
    = Resolved (png_signature ++ repeat 0 128).
Proof.
  apply (syphon_store_holds_png Demo.rt
           [Syphon.WsConnection; Syphon.WsMessage (Str Demo.pixel_url)]).
  vm_compute. reflexivity.
Defined.

Lemma syphon_ingest_then_preview_witness :
  Syphon.get_preview
    (fst (Syphon.on_message Demo.rt Syphon.initial_state (Str Demo.pixel_url)))
  = mkResponse 200 (frame_headers (lit "png"))
      (Bytes (png_signature ++ repeat 0 128)).
Proof.
  assert (Hin : In (CallSharp pixel_png (op_png_quality 100))
                   (snd (Syphon.on_message Demo.rt Syphon.initial_state
                           (Str Demo.pixel_url))))
    by (vm_compute; auto).
  assert (Hres : sharp_toBuffer Demo.rt pixel_png (op_png_quality 100)
                 = Resolved (png_signature ++ repeat 0 128))
    by (vm_compute; reflexivity).
  assert (Hl : 100 < len (png_signature ++ repeat 0 128))
    by (vm_compute; reflexivity).
  exact (syphon_ingest_then_preview Demo.rt Syphon.initial_state
           (Str Demo.pixel_url) pixel_png (op_png_quality 100)
           (png_signature ++ repeat 0 128) Hin Hres Hl).
Defined.

Lemma content_type_follows_request_witness :
  headers (fst (get_frame Demo.rt (initial_state 0) (lit "webp")))
  = [ (lit "Content-Type", lit "image/webp");
      (lit "Cache-Control", lit "no-cache");
      (lit "Access-Control-Allow-Origin", lit "*") ].
Proof.
  assert (H : status (fst (get_frame Demo.rt (initial_state 0) (lit "webp"))) = 200)
    by (vm_compute; reflexivity).
  destruct (content_type_follows_request Demo.rt (initial_state 0) (lit "webp") H)
    as [_ E].
  exact E.
Defined.
